(** * investpy/indices.py : the index catalog builder and its query layer

    A shallow embedding of [src/investpy/indices.py].  Python [str] values are
    sequences of Unicode code points; the HTTP transport, the lxml DOM, the
    text folding of [unidecode], [str.lower], the sort of pandas and
    [json.dumps] are collaborators of the module and are taken as an
    interface ([Env]).  Everything the module itself writes down (loops,
    guards, string clean-up, the symbol pattern, the data frame pipeline)
    is defined here.

    Arguments carry their Python types: [test_mode] and [as_json] are
    [bool], a country is a [str] or [None], [columns] a list of [str] or
    [None].  The [isinstance] guards of the module (ERR#0041, ERR#0025,
    ERR#0002, ERR#0020) are reached by values of another type only and have
    no branch here: every statement below is about calls with arguments of
    these types. *)

From Stdlib Require Import String Ascii.
From Stdlib Require Import List Bool Arith NArith ZArith Lia.
From Stdlib Require Import Sorting.Sorted Sorting.Permutation.
Import ListNotations.

Set Implicit Arguments.
Local Open Scope list_scope.

(* ================================================================== *)
(** ** Python strings *)

(** A Python [str]: a sequence of code points. *)
Definition str := list N.

(** The [str] written by an ASCII literal of the source. *)
Definition py (s : string) : str :=
  map N_of_ascii (list_ascii_of_string s).

Fixpoint str_eqb (a b : str) : bool :=
  match a, b with
  | [], [] => true
  | x :: a', y :: b' => N.eqb x y && str_eqb a' b'
  | _, _ => false
  end.

(** [a <= b] on [str]: lexicographic on code points, as Python compares. *)
Fixpoint str_leb (a b : str) : bool :=
  match a, b with
  | [], _ => true
  | _ :: _, [] => false
  | x :: a', y :: b' =>
      if N.ltb x y then true
      else if N.eqb x y then str_leb a' b' else false
  end.

(** [x in xs] for a list of strings. *)
Fixpoint str_mem (x : str) (xs : list str) : bool :=
  match xs with
  | [] => false
  | y :: ys => str_eqb x y || str_mem x ys
  end.

Fixpoint starts_with (p s : str) : bool :=
  match p, s with
  | [], _ => true
  | _ :: _, [] => false
  | x :: p', y :: s' => N.eqb x y && starts_with p' s'
  end.

(** [s.__contains__(sub)] *)
Fixpoint contains (sub s : str) : bool :=
  starts_with sub s ||
  match s with
  | [] => false
  | _ :: s' => contains sub s'
  end.

(** [s.replace(old, new)] for a non-empty [old]: every non-overlapping
    occurrence, leftmost first.  [skip] counts the characters of an
    occurrence still to be passed over. *)
Fixpoint replace_from (old new s : str) (skip : nat) : str :=
  match s with
  | [] => []
  | c :: rest =>
      match skip with
      | S k => replace_from old new rest k
      | O =>
          if starts_with old s
          then new ++ replace_from old new rest (length old - 1)
          else c :: replace_from old new rest 0
      end
  end.

Definition replace (old new s : str) : str := replace_from old new s 0.

(** The code points [str.strip()] removes (Python's [str.isspace]). *)
Definition isspace (c : N) : bool :=
  ((9 <=? c) && (c <=? 13) || (28 <=? c) && (c <=? 32)
   || (c =? 133) || (c =? 160) || (c =? 5760)
   || (8192 <=? c) && (c <=? 8202)
   || (c =? 8232) || (c =? 8233) || (c =? 8239) || (c =? 8287)
   || (c =? 12288))%N.

Fixpoint lstrip (s : str) : str :=
  match s with
  | [] => []
  | c :: rest => if isspace c then lstrip rest else s
  end.

Definition rstrip (s : str) : str := rev (lstrip (rev s)).

Definition strip (s : str) : str := rstrip (lstrip s).

(** [x.unique()] of pandas, [dict] key order: first appearances, in order. *)
Fixpoint unique (l : list str) : list str :=
  match l with
  | [] => []
  | x :: r => x :: filter (fun y => negb (str_eqb x y)) (unique r)
  end.

(* ================================================================== *)
(** ** The symbol pattern of [retrieve_index_info]

    [re.compile(r"\([a-zA-Z0-9\.\-\_\=]*?\)$")], used through [search] and
    [group]. *)

(** The character class [[a-zA-Z0-9\.\-\_\=]]. *)
Definition symbol_char (c : N) : bool :=
  ((97 <=? c) && (c <=? 122) || (65 <=? c) && (c <=? 90)
   || (48 <=? c) && (c <=? 57)
   || (c =? 46) || (c =? 45) || (c =? 95) || (c =? 61))%N.

Definition lparen : N := 40%N.
Definition rparen : N := 41%N.
Definition newline : N := 10%N.

(** [$] without MULTILINE: the end of the string, or just before a newline
    that ends the string. *)
Definition at_dollar (rest : str) : bool :=
  match rest with
  | [] => true
  | [c] => N.eqb c newline
  | _ => false
  end.

(** After the opening parenthesis: the lazy class repetition, then [\)$].
    The result is the text matched by the repetition. *)
Fixpoint match_token (s : str) : option str :=
  match s with
  | [] => None
  | c :: rest =>
      if N.eqb c rparen && at_dollar rest then Some []
      else if symbol_char c then option_map (cons c) (match_token rest)
      else None
  end.

(** [pattern.search(val)] followed by [res.group()]: the leftmost match. *)
Fixpoint pattern_search (s : str) : option str :=
  match s with
  | [] => None
  | c :: rest =>
      if N.eqb c lparen then
        match match_token rest with
        | Some tok => Some (lparen :: tok ++ [rparen])
        | None => pattern_search rest
        end
      else pattern_search rest
  end.

(** The body of the heading loop for one [h1] whose [text_content()] is
    [title]: the new value of [result['symbol']], if it is assigned. *)
Definition extract_symbol (title : str) : option str :=
  match title with
  | [] => None
  | _ =>
      let val := strip title in
      match pattern_search val with
      | Some symbol => Some (replace (py ")") [] (replace (py "(") [] symbol))
      | None => None
      end
  end.

(* ================================================================== *)
(** ** Data model *)

(** The value of the ['class'] key of a filter and of a record. *)
Inductive IndexClass :=
| major_indices | primary_sectors | additional_indices | other_indices
| bonds | commodities.

(** The value of the ['market'] key. *)
Inductive Market := world_indices | global_indices.

(** One [data] dict of [retrieve_indices], one row of [indices.csv]. *)
Record IndexRecord := {
  country : str;
  name : str;
  full_name : str;
  tag : str;
  id_ : str;
  symbol : option str;
  currency : option str;
  class : IndexClass;
  market : Market
}.

(** A row of [index_countries.csv]. *)
Record CountryEntry := { ce_country : str; ce_country_name : str }.

(** A row of [global_indices_countries.csv]; [g_id] is [str(row['id'])]. *)
Record GlobalCountryEntry := { g_id : str; g_country : str }.

(** An entry of an [indices_filters] list. *)
Record IndicesFilter := { f_class : IndexClass; f_filter : str }.

(** A row once [indices.drop(columns=['tag', 'id'])] has run. *)
Record QueryRow := {
  q_country : str;
  q_name : str;
  q_full_name : str;
  q_symbol : option str;
  q_currency : option str;
  q_class : IndexClass;
  q_market : Market
}.

(** A pandas frame: the rows, each under its index label. *)
Definition DataFrame (A : Type) := list (nat * A).

(** [pd.DataFrame(rows)] and [pd.read_csv]: a fresh [RangeIndex]. *)
Definition frame_of {A} (rows : list A) : DataFrame A :=
  combine (seq 0 (List.length rows)) rows.

Definition frame_rows {A} (df : DataFrame A) : list A := map snd df.

Definition frame_index {A} (df : DataFrame A) : list nat := map fst df.

(** [df.reset_index(drop=True)] *)
Definition reset_index {A} (df : DataFrame A) : DataFrame A :=
  frame_of (frame_rows df).

(** [df.drop_duplicates(subset="tag", keep='first')]: a row is dropped when
    its tag was met on an earlier row. *)
Fixpoint drop_duplicates_from (seen : list str) (df : DataFrame IndexRecord)
  : DataFrame IndexRecord :=
  match df with
  | [] => []
  | (i, r) :: rest =>
      if str_mem (tag r) seen then drop_duplicates_from seen rest
      else (i, r) :: drop_duplicates_from (tag r :: seen) rest
  end.

Definition drop_duplicates (df : DataFrame IndexRecord) :=
  drop_duplicates_from [] df.

(** [indices.drop(columns=['tag', 'id'])] on one row. *)
Definition drop_tag_id (r : IndexRecord) : QueryRow :=
  {| q_country := country r; q_name := name r; q_full_name := full_name r;
     q_symbol := symbol r; q_currency := currency r;
     q_class := class r; q_market := market r |}.

Definition class_name (c : IndexClass) : str :=
  match c with
  | major_indices => py "major_indices"
  | primary_sectors => py "primary_sectors"
  | additional_indices => py "additional_indices"
  | other_indices => py "other_indices"
  | bonds => py "bonds"
  | commodities => py "commodities"
  end.

Definition market_name (m : Market) : str :=
  match m with
  | world_indices => py "world_indices"
  | global_indices => py "global_indices"
  end.

(** [indices.columns.tolist()] after the drop. *)
Definition query_columns : list str :=
  [py "country"; py "name"; py "full_name"; py "symbol"; py "currency";
   py "class"; py "market"].

(** A cell of a record returned by [to_dict]. *)
Inductive PyVal := VStr (s : str) | VNone.

Definition opt_val (o : option str) : PyVal :=
  match o with Some s => VStr s | None => VNone end.

(** The cell of row [r] under column [c] (one of [query_columns]). *)
Definition cell (c : str) (r : QueryRow) : PyVal :=
  if str_eqb c (py "country") then VStr (q_country r)
  else if str_eqb c (py "name") then VStr (q_name r)
  else if str_eqb c (py "full_name") then VStr (q_full_name r)
  else if str_eqb c (py "symbol") then opt_val (q_symbol r)
  else if str_eqb c (py "currency") then opt_val (q_currency r)
  else if str_eqb c (py "class") then VStr (class_name (q_class r))
  else VStr (market_name (q_market r)).

(** [indices[columns].to_dict(orient='records')]: one dict per row, keyed by
    the requested columns (a repeated column is one key). *)
Definition to_dict (columns : list str) (rows : list QueryRow)
  : list (list (str * PyVal)) :=
  map (fun r => map (fun c => (c, cell c r)) (unique columns)) rows.

(** A reply of [requests.get]. *)
Record Response := { status_code : Z; text : str }.

(** The exceptions the module lets escape.  The payload is the error code
    of the message, the status for [ConnectionError], the key for
    [KeyError]. *)
Inductive exn :=
| ValueError (code : string)
| IOError (code : string)
| FileNotFoundError (code : string)
| ConnectionError (status : Z)
| RuntimeError (code : string)
| KeyError (key : string)
| AttributeError.

Inductive result (A : Type) := Ok (a : A) | Raise (e : exn).
Arguments Raise {A} e.

(** [break] at the end of a loop body, or falling through to the next
    iteration. *)
Inductive ctl := Continue | Break.

(* ================================================================== *)
(** ** The collaborators *)

(** What the module imports and does not define: [requests], [lxml],
    [unidecode], [str.lower], the sort of pandas, [json].  The request
    headers are constant apart from the random User-Agent; [requests_get]
    stands for the reply of the provider to a URL sent with them, and
    threads the state of the network so that replies may change from one
    request to the next.  [fromstring] is taken on bodies lxml makes a
    document of; a body it refuses (an empty one, with [ParserError]) is
    outside the interface. *)
Class Env := {
  Net : Type;
  requests_get : Net -> str -> Response * Net;
  Html : Type;
  fromstring : str -> Html;
  xpath : Html -> string -> list Html;
  attrib_get : Html -> string -> option str;
  elem_text : Html -> option str;
  text_content : Html -> str;
  lower : str -> str;
  unidecode : str -> str;
  sort_values_country : DataFrame IndexRecord -> DataFrame IndexRecord;
  json_dumps : list (list (str * PyVal)) -> str
}.

(** [a <= b] on the ['country'] column. *)
Definition country_le (a b : IndexRecord) : Prop :=
  str_leb (country a) (country b) = true.

(** [df.sort_values('country', ascending=True)] returns the rows of [df],
    each with its label, in non-decreasing order of ['country'].  The
    default sort of pandas is not stable: nothing is fixed about ties. *)
Definition sort_values_spec (sort : DataFrame IndexRecord -> DataFrame IndexRecord)
  : Prop :=
  forall df, Permutation (sort df) df /\ Sorted country_le (frame_rows (sort df)).

(** [str.lower] on ASCII text maps [A-Z] to [a-z] and nothing else. *)
Definition ascii_lower (c : N) : N :=
  if ((65 <=? c) && (c <=? 90))%N then (c + 32)%N else c.

Definition lower_spec (lower : str -> str) : Prop :=
  forall s, forallb (fun c => (c <? 128)%N) s = true -> lower s = map ascii_lower s.

(* ================================================================== *)
(** ** The module *)

Section Indices.

Context {E : Env}.

(** The state the module runs in: the network, the three resource files
    (absent, or the table they hold), and a log of the requests performed
    with the status each one got. *)
Record World := {
  net : Net;
  index_countries_csv : option (list CountryEntry);
  global_indices_countries_csv : option (list GlobalCountryEntry);
  indices_csv : option (list IndexRecord);
  requests_log : list (str * Z)
}.

(** A computation: runs in a world, returns or raises, leaves a world. *)
Definition M (A : Type) := World -> result A * World.

Definition ret {A} (a : A) : M A := fun w => (Ok a, w).

Definition raise {A} (e : exn) : M A := fun w => (Raise e, w).

Definition bind {A B} (m : M A) (k : A -> M B) : M B :=
  fun w =>
    match m w with
    | (Ok a, w') => k a w'
    | (Raise e, w') => (Raise e, w')
    end.

Notation "x <- m ;; k" := (bind m (fun x => k))
  (at level 61, m at next level, right associativity).

(** [for x in xs: body], the loop variables threaded through [s]. *)
Fixpoint for_in {A S} (xs : list A) (body : A -> S -> M (S * ctl)) (s : S)
  : M S :=
  match xs with
  | [] => ret s
  | x :: xs' =>
      r <- body x s ;;
      match snd r with
      | Break => ret (fst r)
      | Continue => for_in xs' body (fst r)
      end
  end.

(** [o.method(...)] on a value that may be [None]. *)
Definition deref {A} (o : option A) : M A :=
  match o with
  | Some a => ret a
  | None => raise AttributeError
  end.

(** [requests.get(url, headers=head)] *)
Definition requests_get_ (url : str) : M Response :=
  fun w =>
    let (req, n) := requests_get (net w) url in
    (Ok req,
     {| net := n;
        index_countries_csv := index_countries_csv w;
        global_indices_countries_csv := global_indices_countries_csv w;
        indices_csv := indices_csv w;
        requests_log := requests_log w ++ [(url, status_code req)] |}).

(** [df.to_csv(file_, index=False)] on each of the three files. *)
Definition write_index_countries (t : list CountryEntry) : M unit :=
  fun w =>
    (Ok tt,
     {| net := net w;
        index_countries_csv := Some t;
        global_indices_countries_csv := global_indices_countries_csv w;
        indices_csv := indices_csv w;
        requests_log := requests_log w |}).

Definition write_global_indices_countries (t : list GlobalCountryEntry)
  : M unit :=
  fun w =>
    (Ok tt,
     {| net := net w;
        index_countries_csv := index_countries_csv w;
        global_indices_countries_csv := Some t;
        indices_csv := indices_csv w;
        requests_log := requests_log w |}).

Definition write_indices (t : list IndexRecord) : M unit :=
  fun w =>
    (Ok tt,
     {| net := net w;
        index_countries_csv := index_countries_csv w;
        global_indices_countries_csv := global_indices_countries_csv w;
        indices_csv := Some t;
        requests_log := requests_log w |}).

(** [pkg_resources.resource_exists] then [pd.read_csv], for each file:
    [None] when the file does not exist, and otherwise the table
    [read_csv] makes of it, a header with no row being [Some []].  A file
    without a header, which [read_csv] refuses with [EmptyDataError], is
    outside the model.  The cells of a table are the values [read_csv]
    returned; how a cell written by [to_csv] is read back (an empty string
    or ['NA'] as a missing value, digits as a number) is not examined: no
    statement below goes from a table written to the table read later. *)
Definition read_index_countries : M (option (list CountryEntry)) :=
  fun w => (Ok (index_countries_csv w), w).

Definition read_global_indices_countries
  : M (option (list GlobalCountryEntry)) :=
  fun w => (Ok (global_indices_countries_csv w), w).

Definition read_indices : M (option (list IndexRecord)) :=
  fun w => (Ok (indices_csv w), w).

(** *** [retrieve_index_info] *)

(** The heading loop: the last [h1] with a match decides. *)
Definition scan_headings (path_ : list Html) (symbol0 : option str)
  : option str :=
  fold_left
    (fun sym element_ =>
       match extract_symbol (text_content element_) with
       | Some s => Some s
       | None => sym
       end)
    path_ symbol0.

(** The summary loop: the last bold node with some text decides. *)
Definition scan_currency (path_ : list Html) (currency0 : option str)
  : option str :=
  fold_left
    (fun cur element_ =>
       match text_content element_ with
       | [] => cur
       | t => Some t
       end)
    path_ currency0.

(** The dict [{'currency': ..., 'symbol': ...}]. *)
Record IndexInfo := { info_currency : option str; info_symbol : option str }.

Definition retrieve_index_info (tag : str) : M IndexInfo :=
  let url := py "https://www.investing.com/indices/" ++ tag in
  req <- requests_get_ url ;;
  if negb (status_code req =? 200)%Z
  then raise (ConnectionError (status_code req))
  else
    let root_ := fromstring (text req) in
    let sym :=
      scan_headings (xpath root_ ".//div[@class='instrumentHead']/h1") None in
    let cur :=
      scan_currency
        (xpath root_ ".//div[contains(@class, 'bottom')]/span[@class='bold']")
        None in
    ret {| info_currency := cur; info_symbol := sym |}.

(** *** [retrieve_index_countries], [retrieve_global_indices_countries] *)

Definition retrieve_index_countries (test_mode : bool)
  : M (list CountryEntry) :=
  let url := py "https://www.investing.com/indices/" in
  req <- requests_get_ url ;;
  if negb (status_code req =? 200)%Z
  then raise (ConnectionError (status_code req))
  else
    let root := fromstring (text req) in
    let path := xpath root "//select[@name='country']/option" in
    countries <-
      for_in path
        (fun element countries =>
           match attrib_get element "value" with
           | None => raise AttributeError
           | Some v =>
               if negb (str_eqb v (py "/indices/world-indices")) then
                 let obj :=
                   {| ce_country :=
                        strip (replace (py "-") (py " ")
                                 (replace (py "-indices") []
                                    (replace (py "/indices/") [] v)));
                      ce_country_name :=
                        unidecode (lower (strip (text_content element))) |} in
                 ret (countries ++ [obj], Continue)
               else ret (countries, Continue)
           end)
        [] ;;
    if (List.length countries <=? 0)%nat
    then raise (RuntimeError "ERR#0035")
    else
      _ <- (if negb test_mode then write_index_countries countries
            else ret tt) ;;
      ret countries.

Definition retrieve_global_indices_countries (test_mode : bool)
  : M (list GlobalCountryEntry) :=
  let url := py "https://www.investing.com/indices/global-indices" in
  req <- requests_get_ url ;;
  if negb (status_code req =? 200)%Z
  then raise (ConnectionError (status_code req))
  else
    let root := fromstring (text req) in
    let path := xpath root "//select[@name='country']/option" in
    countries <-
      for_in path
        (fun element countries =>
           match attrib_get element "value" with
           | None => raise AttributeError
           | Some v =>
               if negb (str_eqb v (py "/indices/global-indices")) then
                 let obj :=
                   {| g_id :=
                        replace (py "/indices/global-indices?c_id=") [] v;
                      g_country :=
                        unidecode (lower (strip (text_content element))) |} in
                 ret (countries ++ [obj], if test_mode then Break else Continue)
               else ret (countries, Continue)
           end)
        [] ;;
    if (List.length countries <=? 0)%nat
    then raise (RuntimeError "ERR#0035")
    else
      _ <- (if negb test_mode then write_global_indices_countries countries
            else ret tt) ;;
      ret countries.

(** *** [retrieve_indices] *)

(** The body of [for element_ in elements_.xpath('.//a')], the same text in
    the three passes up to the ['country'] and ['market'] it stores.
    [str(None)] is ['None'], which has no ['/indices/']. *)
Definition scan_anchor (country_ id_0 : str) (cls : IndexClass) (mkt : Market)
    (element_ : Html) (results : list IndexRecord)
  : M (list IndexRecord * ctl) :=
  match attrib_get element_ "href" with
  | None => ret (results, Continue)
  | Some href =>
      if contains (py "/indices/") href then
        let tag_ := replace (py "/indices/") [] href in
        title <- deref (attrib_get element_ "title") ;;
        let full_name_ := strip (replace (py " (CFD)") [] title) in
        txt <- deref (elem_text element_) ;;
        let name_ := strip txt in
        info <- retrieve_index_info tag_ ;;
        let data :=
          {| country := country_; name := name_; full_name := full_name_;
             tag := tag_; id_ := id_0;
             symbol := info_symbol info; currency := info_currency info;
             class := cls; market := mkt |} in
        ret (results ++ [data], Continue)
      else ret (results, Continue)
  end.

Definition indices_filters_1 : list IndicesFilter :=
  [ {| f_class := major_indices; f_filter := py "majorIndices=on" |};
    {| f_class := primary_sectors; f_filter := py "primarySectors=on" |};
    {| f_class := additional_indices; f_filter := py "additionalIndices=on" |};
    {| f_class := other_indices; f_filter := py "otherIndices=on" |} ].

Definition indices_filters_2 : list IndicesFilter :=
  [ {| f_class := major_indices; f_filter := py "majorIndices=on" |};
    {| f_class := primary_sectors; f_filter := py "primarySectors=on" |};
    {| f_class := bonds; f_filter := py "bonds=on" |};
    {| f_class := additional_indices; f_filter := py "additionalIndices=on" |};
    {| f_class := other_indices; f_filter := py "otherIndices=on" |} ].

Definition indices_filters_3 : list IndicesFilter :=
  [ {| f_class := major_indices; f_filter := py "majorIndices=on" |};
    {| f_class := primary_sectors; f_filter := py "primarySectors=on" |};
    {| f_class := bonds; f_filter := py "bonds=on" |};
    {| f_class := additional_indices; f_filter := py "additionalIndices=on" |};
    {| f_class := other_indices; f_filter := py "otherIndices=on" |};
    {| f_class := commodities; f_filter := py "commodities=on" |} ].

(** The ['country'] a first-pass record stores. *)
Definition country_1 (country0 : str) : str :=
  if str_eqb country0 (py "uk") then py "united kingdom"
  else if str_eqb country0 (py "usa") then py "united states"
  else country0.

(** Lines 59-134: the listings of each country of [index_countries.csv]. *)
Definition pass1 (test_mode : bool) (results : list IndexRecord)
  : M (list IndexRecord) :=
  file <- read_index_countries ;;
  match file with
  | None => raise (IOError "ERR#0036")
  | Some countries =>
      for_in (map ce_country countries)
        (fun country0 results =>
           results <-
             for_in indices_filters_1
               (fun indices_filter results =>
                  let url :=
                    py "https://www.investing.com/indices/"
                    ++ replace (py " ") (py "-") country0
                    ++ py "-indices?&" ++ f_filter indices_filter in
                  req <- requests_get_ url ;;
                  if negb (status_code req =? 200)%Z
                  then raise (ConnectionError (status_code req))
                  else
                    let root_ := fromstring (text req) in
                    let path_ := xpath root_ ".//table[@id='cr1']/tbody/tr" in
                    results <-
                      for_in path_
                        (fun elements_ results =>
                           id0 <- deref (attrib_get elements_ "id") ;;
                           let id_0 := replace (py "pair_") [] id0 in
                           results <-
                             for_in (xpath elements_ ".//a")
                               (scan_anchor (country_1 country0) id_0
                                  (f_class indices_filter) world_indices)
                               results ;;
                           ret (results, Continue))
                        results ;;
                    ret (results, Continue))
               results ;;
           ret (results, if test_mode then Break else Continue))
        results
  end.

(** The frame the second pass iterates: the table of
    [global_indices_countries.csv], or what [retrieve_index_countries]
    returned, whose columns are ['country'] and ['country_name']. *)
Inductive CountriesFrame :=
| GlobalFrame (rows : list GlobalCountryEntry)
| ListerFrame (rows : list CountryEntry).

Definition iterrows (f : CountriesFrame)
  : list (GlobalCountryEntry + CountryEntry) :=
  match f with
  | GlobalFrame rows => map inl rows
  | ListerFrame rows => map inr rows
  end.

(** [str(row['id'])] *)
Definition row_id (row : GlobalCountryEntry + CountryEntry) : M str :=
  match row with
  | inl g => ret (g_id g)
  | inr _ => raise (KeyError "id")
  end.

(** [row['country']] *)
Definition row_country (row : GlobalCountryEntry + CountryEntry) : str :=
  match row with
  | inl g => g_country g
  | inr c => ce_country c
  end.

(** Lines 136-222: the global listings of each known country id.
    [countries is None] never holds: both branches bind a frame. *)
Definition pass2 (test_mode : bool) (results : list IndexRecord)
  : M (list IndexRecord) :=
  file <- read_global_indices_countries ;;
  countries <-
    match file with
    | Some t => ret (GlobalFrame t)
    | None =>
        t <- retrieve_index_countries false ;;
        ret (ListerFrame t)
    end ;;
  for_in (iterrows countries)
    (fun row results =>
       results <-
         for_in indices_filters_2
           (fun indices_filter results =>
              rid <- row_id row ;;
              let url :=
                py "https://www.investing.com/indices/global-indices?"
                ++ f_filter indices_filter ++ py "&c_id=" ++ rid in
              req <- requests_get_ url ;;
              if negb (status_code req =? 200)%Z
              then raise (ConnectionError (status_code req))
              else
                let root_ := fromstring (text req) in
                let path_ := xpath root_ ".//table[@id='cr_12']/tbody/tr" in
                results <-
                  for_in path_
                    (fun elements_ results =>
                       id0 <- deref (attrib_get elements_ "id") ;;
                       let id_0 := replace (py "pair_") [] id0 in
                       results <-
                         for_in (xpath elements_ ".//a")
                           (scan_anchor (row_country row) id_0
                              (f_class indices_filter) global_indices)
                           results ;;
                       ret (results, if test_mode then Break else Continue))
                    results ;;
                ret (results, Continue))
           results ;;
       ret (results, if test_mode then Break else Continue))
    results.

(** [for flag in flags: region = flag.get('title')] from [region = None]. *)
Definition read_region (flags : list Html) : option str :=
  fold_left (fun _ flag => attrib_get flag "title") flags None.

(** Lines 281-286.  [None] equals neither literal and has no [strip]. *)
Definition region_country (region : option str) : M str :=
  match region with
  | None => raise AttributeError
  | Some r =>
      if str_eqb r [] then ret (py "world")
      else if str_eqb r (py "Euro Zone") then ret (lower r)
      else ret (unidecode (lower (strip r)))
  end.

(** The body of [for elements_ in path_] in the third pass. *)
Definition scan_row_3 (cls : IndexClass) (elements_ : Html)
    (results : list IndexRecord) : M (list IndexRecord * ctl) :=
  id0 <- deref (attrib_get elements_ "id") ;;
  let id_0 := replace (py "pair_") [] id0 in
  let flags := xpath elements_ ".//td[@class='flag']/span" in
  region <- region_country (read_region flags) ;;
  results <-
    for_in (xpath elements_ ".//a")
      (scan_anchor region id_0 cls global_indices) results ;;
  ret (results, Continue).

(** Lines 224-313: the global listings with no country filter. *)
Definition pass3 (test_mode : bool) (results : list IndexRecord)
  : M (list IndexRecord) :=
  for_in indices_filters_3
    (fun indices_filter results =>
       let url :=
         py "https://www.investing.com/indices/global-indices?"
         ++ f_filter indices_filter ++ py "&r_id=" in
       req <- requests_get_ url ;;
       if negb (status_code req =? 200)%Z
       then raise (ConnectionError (status_code req))
       else
         let root_ := fromstring (text req) in
         let path_ := xpath root_ ".//table[@id='cr_12']/tbody/tr" in
         match path_ with
         | [] => ret (results, Continue)
         | _ =>
             results <-
               for_in path_ (scan_row_3 (f_class indices_filter)) results ;;
             ret (results, if test_mode then Break else Continue)
         end)
    results.

(** Lines 315-329.  [df.where] leaves the frame as it is, an absent symbol
    or currency being [None] already.  A frame built from no record has no
    column: asking it for ['country'] raises [KeyError]. *)
Definition finalize (test_mode : bool) (results : list IndexRecord)
  : M (DataFrame IndexRecord) :=
  let df := frame_of results in
  match df with
  | [] => raise (KeyError "country")
  | _ =>
      let df := drop_duplicates df in
      let df := sort_values_country df in
      let df := reset_index df in
      _ <- (if negb test_mode then write_indices (frame_rows df)
            else ret tt) ;;
      ret df
  end.

Definition retrieve_indices (test_mode : bool) : M (DataFrame IndexRecord) :=
  results <- pass1 test_mode [] ;;
  results <- pass2 test_mode results ;;
  results <- pass3 test_mode results ;;
  finalize test_mode results.

(** *** The query layer *)

(** [indices is None] never holds after [read_csv]: the guard of ERR#0037
    is never taken. *)
Definition index_countries_as_list : M (list str) :=
  file <- read_indices ;;
  match file with
  | None => raise (FileNotFoundError "ERR#0059")
  | Some indices => ret (unique (map country indices))
  end.

(** Lines 601-611, the same in the three readers: the table of
    [indices.csv], or a fresh build when the file is absent, without its
    ['tag'] and ['id'] columns. *)
Definition load_indices : M (DataFrame QueryRow) :=
  file <- read_indices ;;
  indices <-
    match file with
    | Some t => ret (frame_of t)
    | None => retrieve_indices false
    end ;;
  ret (map (fun ir => (fst ir, drop_tag_id (snd ir))) indices).

(** [indices[indices['country'] == c]] *)
Definition where_country (c : str) (indices : DataFrame QueryRow)
  : DataFrame QueryRow :=
  filter (fun ir => str_eqb (q_country (snd ir)) c) indices.

(** The result is [None] when the function falls off its last [elif]. *)
Definition indices_as_df (country0 : option str)
  : M (option (DataFrame QueryRow)) :=
  indices <- load_indices ;;
  match country0 with
  | None => ret (Some (reset_index indices))
  | Some c =>
      countries <- index_countries_as_list ;;
      if str_mem (unidecode (lower c)) countries then
        let indices := where_country (unidecode (lower c)) indices in
        ret (Some (reset_index indices))
      else ret None
  end.

Definition indices_as_list (country0 : option str)
  : M (option (list str)) :=
  indices <- load_indices ;;
  match country0 with
  | None => ret (Some (map q_name (frame_rows indices)))
  | Some c =>
      countries <- index_countries_as_list ;;
      if str_mem (unidecode (lower c)) countries then
        ret (Some (map q_name
                     (frame_rows (where_country (unidecode (lower c)) indices))))
      else ret None
  end.

(** What [indices_as_dict] returns: the records, or their JSON text. *)
Inductive DictResult :=
| Records (l : list (list (str * PyVal)))
| Document (s : str).

Definition indices_as_dict (country0 : option str)
    (columns : option (list str)) (as_json : bool)
  : M (option DictResult) :=
  indices <- load_indices ;;
  let columns :=
    match columns with
    | None => query_columns
    | Some cs => cs
    end in
  if negb (forallb (fun column => str_mem column query_columns) columns)
  then raise (ValueError "ERR#0023")
  else
    match country0 with
    | None =>
        if as_json
        then ret (Some (Document (json_dumps (to_dict columns (frame_rows indices)))))
        else ret (Some (Records (to_dict columns (frame_rows indices))))
    | Some c =>
        countries <- index_countries_as_list ;;
        if str_mem c countries then
          let rows :=
            frame_rows (where_country (unidecode (lower c)) indices) in
          if as_json
          then ret (Some (Document (json_dumps (to_dict columns rows))))
          else ret (Some (Records (to_dict columns rows)))
        else ret None
    end.

End Indices.

Arguments World E : clear implicits.
Arguments M E A : clear implicits.

(* ================================================================== *)
(** ** A small provider, to run the module on *)

Module Mock.

(** A DOM node: its attributes, [.text], [.text_content()], and the nodes
    each path expression of the module selects from it. *)
#[local] Unset Elimination Schemes.
Inductive Node :=
| mk_node (attrs : list (string * str)) (ntext : option str) (content : str)
    (paths : list (string * list Node)).
#[local] Set Elimination Schemes.

Definition node_attrs (n : Node) := let (a, _, _, _) := n in a.
Definition node_text (n : Node) := let (_, t, _, _) := n in t.
Definition node_content (n : Node) := let (_, _, c, _) := n in c.
Definition node_paths (n : Node) := let (_, _, _, p) := n in p.

Fixpoint lookup {A} (k : string) (l : list (string * A)) : option A :=
  match l with
  | [] => None
  | (k', v) :: r => if String.eqb k k' then Some v else lookup k r
  end.

Definition node_xpath (n : Node) (p : string) : list Node :=
  match lookup p (node_paths n) with
  | Some l => l
  | None => []
  end.

(** An anchor of a listing row. *)
Definition anchor (href title txt : string) : Node :=
  mk_node [("href"%string, py href); ("title"%string, py title)]
    (Some (py txt)) (py txt) [].

(** A listing row: its id, the titles of its flag spans, its anchors. *)
Definition row (rid : string) (flags : list string) (anchors : list Node)
  : Node :=
  mk_node [("id"%string, py rid)] None []
    [(".//td[@class='flag']/span"%string,
      map (fun t => mk_node [("title"%string, py t)] None [] []) flags);
     (".//a"%string, anchors)].

Definition listing (table : string) (rows : list Node) : Node :=
  mk_node [] None [] [(table, rows)].

Definition dax : Node := anchor "/indices/germany-30" "DAX (CFD)" " DAX ".
Definition stoxx : Node :=
  anchor "/indices/eu-stoxx50" "Euro Stoxx 50 (CFD)" "Euro Stoxx 50".
Definition chart : Node := anchor "/charts/live" "Chart" "chart".

Definition page_country : Node :=
  listing ".//table[@id='cr1']/tbody/tr" [row "pair_172" [] [dax; chart]].

Definition page_global : Node :=
  listing ".//table[@id='cr_12']/tbody/tr"
    [row "pair_172" [""%string] [dax];
     row "pair_175" ["Euro Zone"%string] [stoxx]].

Definition page_noflag : Node :=
  listing ".//table[@id='cr_12']/tbody/tr" [row "pair_172" [] [dax]].

Definition page_detail : Node :=
  mk_node [] None []
    [(".//div[@class='instrumentHead']/h1"%string,
      [mk_node [] None (py " DAX (GDAXI) ") []]);
     (".//div[contains(@class, 'bottom')]/span[@class='bold']"%string,
      [mk_node [] None (py "EUR") []])].

Definition page_bare : Node := mk_node [] None [] [].

Definition option_node (value txt : string) : Node :=
  mk_node [("value"%string, py value)] (Some (py txt)) (py txt) [].

Definition page_select : Node :=
  mk_node [] None []
    [("//select[@name='country']/option"%string,
      [option_node "/indices/world-indices" "World";
       option_node "/indices/germany-indices" " Germany "])].

(** The body of a reply names the page it parses to. *)
Definition parse (body : str) : Node :=
  if str_eqb body (py "country") then page_country
  else if str_eqb body (py "global") then page_global
  else if str_eqb body (py "noflag") then page_noflag
  else if str_eqb body (py "detail") then page_detail
  else if str_eqb body (py "select") then page_select
  else page_bare.

(** Stable insertion sort on ['country']. *)
Fixpoint insert_row (x : nat * IndexRecord) (l : DataFrame IndexRecord)
  : DataFrame IndexRecord :=
  match l with
  | [] => [x]
  | y :: r =>
      if str_leb (country (snd x)) (country (snd y)) then x :: l
      else y :: insert_row x r
  end.

Fixpoint sort_rows (l : DataFrame IndexRecord) : DataFrame IndexRecord :=
  match l with
  | [] => []
  | x :: r => insert_row x (sort_rows r)
  end.

(** A few Latin-1 letters folded to their base letter. *)
Definition fold_char (c : N) : N :=
  (if (c =? 228) || (c =? 224) || (c =? 225) then 97
   else if (c =? 233) || (c =? 232) then 101
   else if (c =? 244) || (c =? 246) then 111
   else if (c =? 252) then 117
   else c)%N.

(** The network is the site serving it: a reply for each URL. *)
Definition mock : Env :=
  {| Net := str -> Response;
     requests_get := fun site url => (site url, site);
     Html := Node;
     fromstring := parse;
     xpath := node_xpath;
     attrib_get := fun n k => lookup k (node_attrs n);
     elem_text := node_text;
     text_content := node_content;
     lower := map ascii_lower;
     unidecode := map fold_char;
     sort_values_country := sort_rows;
     json_dumps := fun l => match l with [] => py "[]" | _ => py "[...]" end |}.

Definition reply (code : Z) (body : string) : Response :=
  {| status_code := code; text := py body |}.

(** Every page is served; [detail] is the status of the detail pages and
    [glob] the body of the global listings. *)
Definition site (detail : Z) (glob : string) (url : str) : Response :=
  if str_eqb url (py "https://www.investing.com/indices/")
  then reply 200 "select"
  else if starts_with (py "https://www.investing.com/indices/global-indices?") url
  then reply 200 glob
  else if contains (py "-indices?&") url then reply 200 "country"
  else reply detail "detail".

Definition germany : CountryEntry :=
  {| ce_country := py "germany"; ce_country_name := py "germany" |}.

(** A world with the two country files and no catalog. *)
Definition world (s : str -> Response)
    (countries : option (list CountryEntry))
    (globals : option (list GlobalCountryEntry))
    (catalog : option (list IndexRecord)) : World mock :=
  @Build_World mock s countries globals catalog [].

Definition rec_dax : IndexRecord :=
  {| country := py "germany"; name := py "DAX"; full_name := py "DAX";
     tag := py "germany-30"; id_ := py "172";
     symbol := Some (py "GDAXI"); currency := Some (py "EUR");
     class := major_indices; market := world_indices |}.

Definition rec_stoxx : IndexRecord :=
  {| country := py "euro zone"; name := py "Euro Stoxx 50";
     full_name := py "Euro Stoxx 50";
     tag := py "eu-stoxx50"; id_ := py "175";
     symbol := Some (py "GDAXI"); currency := Some (py "EUR");
     class := major_indices; market := global_indices |}.

(** The catalog is absent, the two country files are there, every page is
    served. *)
Definition w_build : World mock :=
  world (site 200 "global") (Some [germany]) (Some []) None.

(** The same, the detail pages answering 404. *)
Definition w_404 : World mock :=
  world (site 404 "global") (Some [germany]) (Some []) None.

(** The rows of the global listings have no flag span. *)
Definition w_noflag : World mock :=
  world (site 200 "noflag") (Some []) (Some []) None.

(** [index_countries.csv] is absent. *)
Definition w_nofile : World mock :=
  world (site 200 "global") None (Some []) None.

(** The catalog is there, with two rows. *)
Definition w_catalog : World mock :=
  world (site 200 "global") (Some [germany]) (Some [])
    (Some [rec_stoxx; rec_dax]).

(** The catalog is there, with its header and no row. *)
Definition w_norows : World mock :=
  world (site 200 "global") (Some [germany]) (Some []) (Some []).

(** What the build returns from [w_build]. *)
Definition df_build : DataFrame IndexRecord := [(0, rec_stoxx); (1, rec_dax)].

(** The second row of [page_global]. *)
Definition row_stoxx : Node := row "pair_175" ["Euro Zone"%string] [stoxx].

End Mock.

(* ================================================================== *)
(** ** Predicates the statements use *)

(** [s] ends in [(tok)], [tok] made of characters of the class. *)
Definition trailing_token (s tok : str) : Prop :=
  exists pre, s = pre ++ lparen :: tok ++ [rparen]
              /\ forallb symbol_char tok = true.

(** [s'] is [s] followed by records that satisfy [Q]. *)
Definition extends (Q : IndexRecord -> Prop) (s s' : list IndexRecord) : Prop :=
  exists new, s' = s ++ new /\ Forall Q new.

(** A logged request that got the status 200. *)
Definition served (f : str * Z) : Prop := snd f = 200%Z.

(** The requests [t] of a run that ended in [r] stopped at the first reply
    that was not 200: it is the last one, and [r] is the [ConnectionError]
    of its status. *)
Definition aborted {A} (t : list (str * Z)) (r : result A) : Prop :=
  exists pre url c,
    t = pre ++ [(url, c)] /\ Forall served pre /\ c <> 200%Z
    /\ r = Raise (ConnectionError c).

(** [m] checks every reply it gets: run from any world it leaves
    [indices.csv] as it was, and either every request it performed got the
    status 200 or it stopped at the first one that did not. *)
Definition transport_safe {E : Env} {A} (m : M E A) : Prop :=
  forall w, exists t,
    requests_log (snd (m w)) = requests_log w ++ t
    /\ indices_csv (snd (m w)) = indices_csv w
    /\ (Forall served t \/ aborted t (fst (m w))).

(** A string [strip] leaves as it is. *)
Definition trimmed (s : str) : Prop := strip s = s.

(** [a < b] on [str]. *)
Definition str_lt (a b : str) : Prop := str_leb a b = true /\ a <> b.

(** The last element of [l] that [get] makes something of decides, [acc]
    when there is none: the shape of the two loops of
    [retrieve_index_info]. *)
Definition last_some {A B} (get : A -> option B) (l : list A) (acc : option B)
  : option B :=
  fold_left
    (fun a x => match get x with Some y => Some y | None => a end) l acc.

(** [m] leaves the part [f] of the world as it was. *)
Definition preserves {E : Env} {A X} (f : World E -> X) (m : M E A) : Prop :=
  forall w, f (snd (m w)) = f w.

(** The entries [retrieve_index_countries] makes of the options of the
    selector: one for each option whose value is not the default one. *)
Definition index_country_entries {E : Env} (options : list Html)
  : list CountryEntry :=
  flat_map
    (fun element =>
       match attrib_get element "value" with
       | Some v =>
           if negb (str_eqb v (py "/indices/world-indices")) then
             [ {| ce_country :=
                    strip (replace (py "-") (py " ")
                             (replace (py "-indices") []
                                (replace (py "/indices/") [] v)));
                  ce_country_name :=
                    unidecode (lower (strip (text_content element))) |} ]
           else []
       | None => []
       end)
    options.

(** The same for [retrieve_global_indices_countries]. *)
Definition global_country_entries {E : Env} (options : list Html)
  : list GlobalCountryEntry :=
  flat_map
    (fun element =>
       match attrib_get element "value" with
       | Some v =>
           if negb (str_eqb v (py "/indices/global-indices")) then
             [ {| g_id := replace (py "/indices/global-indices?c_id=") [] v;
                  g_country :=
                    unidecode (lower (strip (text_content element))) |} ]
           else []
       | None => []
       end)
    options.

(** The text fields of a record as the scan leaves them. *)
Definition text_wf (d : IndexRecord) : Prop :=
  trimmed (name d) /\ trimmed (full_name d)
  /\ (forall s, symbol d = Some s -> forallb symbol_char s = true)
  /\ currency d <> Some [].

(** The classes of the first pass. *)
Definition world_class (c : IndexClass) : Prop :=
  match c with
  | bonds | commodities => False
  | _ => True
  end.

(** What the market of a record says of its class and country. *)
Definition market_wf (d : IndexRecord) : Prop :=
  match market d with
  | world_indices =>
      world_class (class d)
      /\ country d <> py "uk" /\ country d <> py "usa"
  | global_indices => True
  end.

(** [json.dumps] over the records of a result, [None] left as it is. *)
Definition as_document {E : Env} (r : option DictResult) : option DictResult :=
  match r with
  | Some (Records l) => Some (Document (json_dumps l))
  | other => other
  end.

(* ================================================================== *)
(** ** Strings: equality, membership, clean-up *)

Lemma str_eqb_eq (a b : str) : str_eqb a b = true <-> a = b.
Proof.
  revert b; induction a as [|x a IH]; intros [|y b]; simpl;
    try (split; [discriminate | congruence]); try tauto.
  rewrite andb_true_iff, N.eqb_eq, IH. split.
  - intros [-> ->]; reflexivity.
  - intros H; injection H; auto.
Qed.

Lemma str_eqb_refl (a : str) : str_eqb a a = true.
Proof. apply str_eqb_eq; reflexivity. Qed.

Lemma str_eqb_neq (a b : str) : str_eqb a b = false <-> a <> b.
Proof.
  rewrite <- str_eqb_eq. destruct (str_eqb a b); split; congruence.
Qed.

Lemma str_mem_In (x : str) (xs : list str) : str_mem x xs = true <-> In x xs.
Proof.
  induction xs as [|y ys IH]; simpl.
  - split; [discriminate | tauto].
  - rewrite orb_true_iff, IH, str_eqb_eq. split; intros [H|H]; auto.
Qed.

Lemma str_mem_not_In (x : str) (xs : list str) :
  str_mem x xs = false <-> ~ In x xs.
Proof.
  rewrite <- str_mem_In. destruct (str_mem x xs); split; congruence.
Qed.

Lemma lstrip_head (s : str) (c : N) (r : str) :
  lstrip s = c :: r -> isspace c = false.
Proof.
  induction s as [|x s IH]; simpl; [discriminate|].
  destruct (isspace x) eqn:Hx; auto.
  intros H; injection H as -> _; exact Hx.
Qed.

(** A stripped string does not end in white space. *)
Lemma strip_last (s l : str) (c : N) :
  strip s = l ++ [c] -> isspace c = false.
Proof.
  unfold strip, rstrip.
  destruct (lstrip (rev (lstrip s))) as [|x r] eqn:Hl; simpl.
  - destruct l; discriminate.
  - intros H. apply app_inj_tail in H as [_ <-].
    eapply lstrip_head; eauto.
Qed.

(** Replacing a single character by nothing filters it out. *)
Lemma replace_char_filter (c : N) (s : str) :
  replace [c] [] s = filter (fun x => negb (N.eqb c x)) s.
Proof.
  unfold replace. induction s as [|x s IH]; simpl; [reflexivity|].
  rewrite andb_true_r. destruct (N.eqb c x); simpl; rewrite IH; reflexivity.
Qed.

Lemma symbol_char_not_paren (c : N) :
  symbol_char c = true -> N.eqb c lparen = false /\ N.eqb c rparen = false.
Proof.
  unfold symbol_char, lparen, rparen. intros H.
  repeat rewrite orb_true_iff in H; repeat rewrite andb_true_iff in H.
  repeat rewrite N.leb_le in H; repeat rewrite N.eqb_eq in H.
  split; apply N.eqb_neq; lia.
Qed.

Lemma filter_symbol_chars (p : N) (tok : str) :
  (p = lparen \/ p = rparen) ->
  forallb symbol_char tok = true ->
  filter (fun x => negb (N.eqb p x)) tok = tok.
Proof.
  intros Hp. induction tok as [|c tok IH]; simpl; [reflexivity|].
  rewrite andb_true_iff. intros [Hc Ht].
  apply symbol_char_not_paren in Hc as [H1 H2].
  rewrite N.eqb_sym. destruct Hp as [-> | ->]; rewrite ?H1, ?H2; cbn [negb];
    rewrite IH; auto.
Qed.

(** [symbol.replace('(', '').replace(')', '')] on a match of the pattern. *)
Lemma strip_parens (tok : str) :
  forallb symbol_char tok = true ->
  replace (py ")") [] (replace (py "(") [] (lparen :: tok ++ [rparen])) = tok.
Proof.
  intros H. change (py ")") with [rparen]. change (py "(") with [lparen].
  rewrite !replace_char_filter.
  cbn [filter]. rewrite N.eqb_refl. cbn [negb].
  rewrite !filter_app.
  rewrite (filter_symbol_chars (p := lparen)); auto.
  rewrite (filter_symbol_chars (p := rparen)); auto.
  cbn [filter]. change (N.eqb lparen rparen) with false. cbn [negb filter].
  rewrite N.eqb_refl. cbn [negb]. apply app_nil_r.
Qed.

(* ================================================================== *)
(** ** The symbol pattern *)

Lemma match_token_sound (s tok : str) :
  match_token s = Some tok ->
  forallb symbol_char tok = true
  /\ (s = tok ++ [rparen] \/ s = tok ++ [rparen; newline]).
Proof.
  revert tok; induction s as [|c s IH]; simpl; intros tok; [discriminate|].
  destruct (N.eqb c rparen && at_dollar s) eqn:Hc.
  - intros H; injection H as <-. apply andb_true_iff in Hc as [Hc Hd].
    apply N.eqb_eq in Hc; subst c. split; [reflexivity|].
    destruct s as [|d [|? ?]]; simpl in Hd; try discriminate; auto.
    apply N.eqb_eq in Hd; subst d; auto.
  - destruct (symbol_char c) eqn:Hs; [|discriminate].
    destruct (match_token s) as [t|] eqn:Hm; simpl; [|discriminate].
    intros H; injection H as <-.
    destruct (IH t eq_refl) as [Ht Hsplit]. split.
    + simpl; rewrite Hs, Ht; reflexivity.
    + destruct Hsplit as [-> | ->]; auto.
Qed.

Lemma match_token_complete (tok : str) :
  forallb symbol_char tok = true -> match_token (tok ++ [rparen]) = Some tok.
Proof.
  induction tok as [|c tok IH]; simpl.
  - intros _. reflexivity.
  - rewrite andb_true_iff; intros [Hc Ht].
    destruct (symbol_char_not_paren _ Hc) as [_ Hr].
    rewrite Hr, Hc, (IH Ht). reflexivity.
Qed.

(** No match runs across an opening parenthesis. *)
Lemma match_token_blocked (pre x : str) :
  match_token (pre ++ lparen :: x) = None.
Proof.
  induction pre as [|c pre IH]; simpl.
  - reflexivity.
  - replace (at_dollar (pre ++ lparen :: x)) with false.
    + rewrite andb_false_r, IH. destruct (symbol_char c); reflexivity.
    + destruct pre as [|a [|b pre]]; simpl; try reflexivity.
      destruct x; reflexivity.
Qed.

Lemma pattern_search_complete (pre tok : str) :
  forallb symbol_char tok = true ->
  pattern_search (pre ++ lparen :: tok ++ [rparen])
  = Some (lparen :: tok ++ [rparen]).
Proof.
  intros Ht. induction pre as [|c pre IH]; simpl.
  - rewrite (match_token_complete _ Ht). reflexivity.
  - rewrite match_token_blocked, IH. destruct (N.eqb c lparen); reflexivity.
Qed.

Lemma pattern_search_sound (s g : str) :
  pattern_search s = Some g ->
  exists pre tok,
    g = lparen :: tok ++ [rparen]
    /\ forallb symbol_char tok = true
    /\ (s = pre ++ g \/ s = pre ++ g ++ [newline]).
Proof.
  revert g; induction s as [|c s IH]; simpl; intros g; [discriminate|].
  assert (Hrec : pattern_search s = Some g ->
                 exists pre tok,
                   g = lparen :: tok ++ [rparen]
                   /\ forallb symbol_char tok = true
                   /\ (c :: s = pre ++ g \/ c :: s = pre ++ g ++ [newline])).
  { intros H. destruct (IH g H) as (pre & tok & Hg & Ht & Hs).
    exists (c :: pre), tok. repeat split; auto.
    destruct Hs as [-> | ->]; auto. }
  destruct (N.eqb c lparen) eqn:Hc; auto.
  destruct (match_token s) as [tok|] eqn:Hm; auto.
  intros H; injection H as <-. apply N.eqb_eq in Hc; subst c.
  destruct (match_token_sound _ Hm) as [Ht Hs].
  exists [], tok. repeat split; auto. simpl.
  destruct Hs as [-> | ->]; auto.
  right. rewrite <- app_assoc. reflexivity.
Qed.

(** C9. [extract_symbol], the symbol step of [retrieve_index_info]: when
    the trimmed title ends in a parenthesized token made of letters, digits
    and [. - _ =], the token without its parentheses is returned; when the
    trimmed title ends in no such token, nothing is; and
    ["Example Index (IDX)"] gives ["IDX"], ["Example Index"] gives nothing. *)
Theorem extract_symbol_trailing_token (title : str) :
  (forall tok, trailing_token (strip title) tok ->
               extract_symbol title = Some tok)
  /\ ((forall tok, ~ trailing_token (strip title) tok) ->
      extract_symbol title = None)
  /\ extract_symbol (py "Example Index (IDX)") = Some (py "IDX")
  /\ extract_symbol (py "Example Index") = None.
Proof.
  split; [|split; [|split; reflexivity]].
  - intros tok (pre & Hs & Ht). unfold extract_symbol.
    destruct title as [|c title]; [destruct pre; discriminate|].
    rewrite Hs, (pattern_search_complete pre tok Ht), (strip_parens tok Ht).
    reflexivity.
  - intros Hno. unfold extract_symbol. destruct title as [|c title]; auto.
    destruct (pattern_search (strip (c :: title))) as [g|] eqn:Hp; auto.
    exfalso. destruct (pattern_search_sound _ Hp) as (pre & tok & Hg & Ht & Hs).
    destruct Hs as [Hs | Hs].
    + apply (Hno tok). exists pre. subst g. auto.
    + rewrite app_assoc in Hs. apply strip_last in Hs. discriminate.
Qed.

Lemma extract_symbol_trailing_token_witness :
  trailing_token (strip (py "  S&P 500 (US500) ")) (py "US500")
  /\ extract_symbol (py "  S&P 500 (US500) ") = Some (py "US500").
Proof.
  assert (H : trailing_token (strip (py "  S&P 500 (US500) ")) (py "US500")).
  { exists (py "S&P 500 "). split; reflexivity. }
  split; [exact H|].
  exact (proj1 (extract_symbol_trailing_token (py "  S&P 500 (US500) ")) _ H).
Defined.

(* ================================================================== *)
(** ** Frames *)

Lemma frame_rows_of {A} (rows : list A) : frame_rows (frame_of rows) = rows.
Proof.
  unfold frame_rows, frame_of. generalize 0.
  induction rows as [|x rows IH]; intros n; simpl; [reflexivity|].
  rewrite IH. reflexivity.
Qed.

Lemma frame_index_of {A} (rows : list A) :
  frame_index (frame_of rows) = seq 0 (List.length rows).
Proof.
  unfold frame_index, frame_of. generalize 0.
  induction rows as [|x rows IH]; intros n; simpl; [reflexivity|].
  rewrite IH. reflexivity.
Qed.

Lemma frame_of_length {A} (rows : list A) :
  List.length (frame_of rows) = List.length rows.
Proof.
  rewrite <- (frame_rows_of rows) at 2. unfold frame_rows.
  rewrite length_map. reflexivity.
Qed.

Lemma frame_rows_map {A B} (f : A -> B) (df : DataFrame A) :
  frame_rows (map (fun ir => (fst ir, f (snd ir))) df) = map f (frame_rows df).
Proof.
  unfold frame_rows. rewrite !map_map. reflexivity.
Qed.

Lemma frame_rows_filter {A} (p : A -> bool) (df : DataFrame A) :
  frame_rows (filter (fun ir => p (snd ir)) df) = filter p (frame_rows df).
Proof.
  unfold frame_rows. induction df as [|[i r] df IH]; simpl; [reflexivity|].
  destruct (p r); simpl; rewrite IH; reflexivity.
Qed.

Lemma filter_map_comm {A B} (f : A -> B) (p : B -> bool) (l : list A) :
  filter p (map f l) = map f (filter (fun x => p (f x)) l).
Proof.
  induction l as [|x l IH]; simpl; [reflexivity|].
  destruct (p (f x)); simpl; rewrite IH; reflexivity.
Qed.

(* ================================================================== *)
(** ** [unique] *)

Lemma unique_In (x : str) (l : list str) : In x (unique l) <-> In x l.
Proof.
  induction l as [|y l IH]; simpl; [tauto|].
  rewrite filter_In, IH, negb_true_iff, str_eqb_neq.
  destruct (list_eq_dec N.eq_dec y x) as [->|Hne]; [tauto|].
  split; intros [H|H]; auto; tauto.
Qed.

Lemma unique_NoDup (l : list str) : NoDup (unique l).
Proof.
  induction l as [|y l IH]; simpl; constructor.
  - rewrite filter_In, negb_true_iff, str_eqb_neq. tauto.
  - apply NoDup_filter. exact IH.
Qed.

Lemma filter_comm {A} (p q : A -> bool) (l : list A) :
  filter p (filter q l) = filter q (filter p l).
Proof.
  induction l as [|x l IH]; simpl; [reflexivity|].
  destruct (p x) eqn:Hp, (q x) eqn:Hq; simpl; rewrite ?Hp, ?Hq, IH;
    reflexivity.
Qed.

Lemma filter_idem {A} (p : A -> bool) (l : list A) :
  filter p (filter p l) = filter p l.
Proof.
  induction l as [|x l IH]; simpl; [reflexivity|].
  destruct (p x) eqn:Hp; simpl; rewrite ?Hp, IH; reflexivity.
Qed.

Lemma filter_unique (x : str) (l : list str) :
  filter (fun y => negb (str_eqb x y)) (unique l)
  = unique (filter (fun y => negb (str_eqb x y)) l).
Proof.
  induction l as [|y l IH]; [reflexivity|].
  cbn [unique filter]. destruct (str_eqb x y) eqn:Hxy; cbn [negb].
  - apply str_eqb_eq in Hxy; subst y. rewrite filter_idem. exact IH.
  - cbn [unique]. rewrite filter_comm, IH. reflexivity.
Qed.

(** Order of first appearance: the first value, then what is new later. *)
Lemma unique_first (x : str) (l : list str) :
  unique (x :: l) = x :: unique (filter (fun y => negb (str_eqb x y)) l).
Proof. cbn [unique]. rewrite filter_unique. reflexivity. Qed.

(* ================================================================== *)
(** ** Running computations *)

Section Proofs.

Context {E : Env}.

Lemma bind_ok {A B} (m : M E A) (k : A -> M E B) (w w' : World E) (b : B) :
  bind m k w = (Ok b, w') ->
  exists a w1, m w = (Ok a, w1) /\ k a w1 = (Ok b, w').
Proof.
  unfold bind. destruct (m w) as [[a|e] w1]; [eauto | discriminate].
Qed.

Lemma bind_run {A B} (m : M E A) (k : A -> M E B) (w w1 : World E) (a : A)
    (H : m w = (Ok a, w1)) :
  bind m k w = k a w1.
Proof. unfold bind. rewrite H. reflexivity. Qed.

Lemma bind_raise {A B} (m : M E A) (k : A -> M E B) (w w1 : World E) e
    (H : m w = (Raise e, w1)) :
  bind m k w = (Raise e, w1).
Proof. unfold bind. rewrite H. reflexivity. Qed.

(** A loop preserves every relation on its variables that is reflexive,
    transitive and preserved by its body. *)
Lemma for_in_ok {A S} (R : S -> S -> Prop) (xs : list A)
    (body : A -> S -> M E (S * ctl)) :
  (forall s, R s s) ->
  (forall s1 s2 s3, R s1 s2 -> R s2 s3 -> R s1 s3) ->
  (forall x s w r w', In x xs -> body x s w = (Ok r, w') -> R s (fst r)) ->
  forall s w s' w', for_in xs body s w = (Ok s', w') -> R s s'.
Proof.
  intros Hrefl Htrans. induction xs as [|x xs IH]; intros Hbody s w s' w'.
  - simpl. unfold ret. intros H; injection H as <- _. apply Hrefl.
  - simpl. intros H. apply bind_ok in H as ([s1 c] & w1 & Hb & Hk).
    apply Hbody in Hb; [|left; reflexivity]. simpl in *.
    destruct c.
    + eapply Htrans; [exact Hb|]. eapply IH; [|exact Hk].
      intros; eapply Hbody; [right|]; eassumption.
    + unfold ret in Hk. injection Hk as <- _. exact Hb.
Qed.

(** *** The query layer on a catalog that is there *)

Lemma load_indices_present (w : World E) (catalog : list IndexRecord) :
  indices_csv w = Some catalog ->
  load_indices w
  = (Ok (map (fun ir => (fst ir, drop_tag_id (snd ir))) (frame_of catalog)), w).
Proof.
  intros H. unfold load_indices, bind, read_indices, ret. rewrite H.
  reflexivity.
Qed.

Lemma index_countries_as_list_present (w : World E) catalog :
  indices_csv w = Some catalog ->
  index_countries_as_list w = (Ok (unique (map country catalog)), w).
Proof.
  intros H. unfold index_countries_as_list, bind, read_indices, ret.
  rewrite H. reflexivity.
Qed.

Lemma index_countries_as_list_absent (w : World E) :
  indices_csv w = None ->
  index_countries_as_list w = (Raise (FileNotFoundError "ERR#0059"), w).
Proof.
  intros H. unfold index_countries_as_list, bind, read_indices, raise.
  rewrite H. reflexivity.
Qed.

(** What [listCountries] does return: the distinct countries of the file,
    each at the place of its first row; the not-found error without a file. *)
Lemma index_countries_as_list_spec (w : World E) :
  match indices_csv w with
  | None =>
      index_countries_as_list w = (Raise (FileNotFoundError "ERR#0059"), w)
  | Some catalog =>
      exists l,
        index_countries_as_list w = (Ok l, w)
        /\ NoDup l
        /\ (forall c, In c l <-> In c (map country catalog))
        /\ l = unique (map country catalog)
  end.
Proof.
  destruct (indices_csv w) as [catalog|] eqn:H.
  - exists (unique (map country catalog)).
    split; [apply index_countries_as_list_present; exact H|].
    split; [apply unique_NoDup|]. split; [intros c; apply unique_In | reflexivity].
  - apply index_countries_as_list_absent; exact H.
Qed.

(** The rows of the frame a country filter leaves. *)
Lemma where_country_rows (c : str) (catalog : list IndexRecord) :
  frame_rows
    (where_country c
       (map (fun ir => (fst ir, drop_tag_id (snd ir))) (frame_of catalog)))
  = map drop_tag_id (filter (fun r => str_eqb (country r) c) catalog).
Proof.
  unfold where_country.
  rewrite (frame_rows_filter (fun r => str_eqb (q_country r) c)).
  rewrite frame_rows_map, frame_rows_of, filter_map_comm. reflexivity.
Qed.

(** C3. [indices_as_df] and [indices_as_list] on a string country, the
    catalog being readable: when the normalized country is in the output of
    [index_countries_as_list], the result holds exactly the catalog rows of
    that country (without tag and id, in file order, freshly indexed; their
    names for the list); when it is not, the call returns [None], which
    holds no row, and raises nothing. *)
Theorem indices_as_df_country_filter (w : World E) (c : str)
    (countries : list str) :
  index_countries_as_list w = (Ok countries, w) ->
  exists catalog,
    indices_csv w = Some catalog
    /\ let n := unidecode (lower c) in
       let rows := filter (fun r => str_eqb (country r) n) catalog in
       (In n countries ->
          indices_as_df (Some c) w
          = (Ok (Some (frame_of (map drop_tag_id rows))), w)
          /\ indices_as_list (Some c) w = (Ok (Some (map name rows)), w))
       /\ (~ In n countries ->
           indices_as_df (Some c) w = (Ok None, w)
           /\ indices_as_list (Some c) w = (Ok None, w)).
Proof.
  intros Hl. destruct (indices_csv w) as [catalog|] eqn:Hc.
  2:{ rewrite (index_countries_as_list_absent w Hc) in Hl. discriminate. }
  exists catalog. split; [reflexivity|]. intros n rows.
  pose proof (load_indices_present w Hc) as Hload.
  split.
  - intros Hin. apply str_mem_In in Hin. split.
    + unfold indices_as_df. rewrite (bind_run _ _ _ Hload), (bind_run _ _ _ Hl).
      fold n. rewrite Hin. unfold ret, reset_index.
      rewrite where_country_rows. reflexivity.
    + unfold indices_as_list. rewrite (bind_run _ _ _ Hload), (bind_run _ _ _ Hl).
      fold n. rewrite Hin. unfold ret.
      rewrite where_country_rows, map_map. reflexivity.
  - intros Hin. apply str_mem_not_In in Hin. split.
    + unfold indices_as_df. rewrite (bind_run _ _ _ Hload), (bind_run _ _ _ Hl).
      fold n. rewrite Hin. reflexivity.
    + unfold indices_as_list. rewrite (bind_run _ _ _ Hload), (bind_run _ _ _ Hl).
      fold n. rewrite Hin. reflexivity.
Qed.

(** Where [indices_as_dict] and [indices_as_df] do agree: on a country
    that its own normalization leaves as it is. *)
Lemma indices_as_dict_normalized (w : World E) (c : str) catalog :
  indices_csv w = Some catalog ->
  unidecode (lower c) = c ->
  In c (map country catalog) ->
  exists df,
    indices_as_df (Some c) w = (Ok (Some df), w)
    /\ indices_as_dict (Some c) None false w
       = (Ok (Some (Records (to_dict query_columns (frame_rows df)))), w).
Proof.
  intros Hc Hn Hin.
  pose proof (load_indices_present w Hc) as Hload.
  pose proof (index_countries_as_list_present w Hc) as Hl.
  assert (Hm : str_mem c (unique (map country catalog)) = true).
  { apply str_mem_In, unique_In, Hin. }
  eexists. split.
  - unfold indices_as_df. rewrite (bind_run _ _ _ Hload), (bind_run _ _ _ Hl).
    rewrite Hn, Hm. reflexivity.
  - unfold indices_as_dict. rewrite (bind_run _ _ _ Hload).
    change (forallb (fun column => str_mem column query_columns) query_columns)
      with true.
    cbn [negb]. rewrite (bind_run _ _ _ Hl), Hm, Hn. unfold ret, reset_index.
    rewrite frame_rows_of. reflexivity.
Qed.

(** C8, amended. With the catalog file in place, [indices_as_dict] called
    with a columns list that holds a name outside country, name, full_name,
    symbol, currency, class, market (so for ["tag"] and ["id"] too) raises
    [ValueError] and leaves the world as it was. *)
Theorem indices_as_dict_unknown_column (w : World E) catalog
    (country0 : option str) (columns : list str) (as_json : bool) :
  indices_csv w = Some catalog ->
  (exists c, In c columns /\ ~ In c query_columns) ->
  indices_as_dict country0 (Some columns) as_json w
  = (Raise (ValueError "ERR#0023"), w)
  /\ ~ In (py "tag") query_columns /\ ~ In (py "id") query_columns.
Proof.
  intros Hc (c & Hin & Hout). split.
  - unfold indices_as_dict. rewrite (bind_run _ _ _ (load_indices_present w Hc)).
    replace (forallb (fun column => str_mem column query_columns) columns)
      with false; [reflexivity|].
    symmetry. apply not_true_is_false. intros Hall.
    rewrite forallb_forall in Hall. apply Hout, str_mem_In, Hall, Hin.
  - split; intros H; apply str_mem_In in H; discriminate.
Qed.

(** *** What the passes add to [results] *)

Lemma extends_refl Q s : extends Q s s.
Proof. exists []. rewrite app_nil_r. auto. Qed.

Lemma extends_trans Q s1 s2 s3 :
  extends Q s1 s2 -> extends Q s2 s3 -> extends Q s1 s3.
Proof.
  intros (n1 & -> & H1) (n2 & -> & H2). exists (n1 ++ n2).
  rewrite app_assoc. split; [reflexivity|]. apply Forall_app; auto.
Qed.

Lemma extends_weaken (Q Q' : IndexRecord -> Prop) s s' :
  (forall d, Q d -> Q' d) -> extends Q s s' -> extends Q' s s'.
Proof.
  intros HQ (n & -> & H). exists n. split; [reflexivity|].
  eapply Forall_impl; eauto.
Qed.

Lemma for_in_extends {A} Q (xs : list A)
    (body : A -> list IndexRecord -> M E (list IndexRecord * ctl)) :
  (forall x s w r w', body x s w = (Ok r, w') -> extends Q s (fst r)) ->
  forall s w s' w', for_in xs body s w = (Ok s', w') -> extends Q s s'.
Proof.
  intros Hbody. apply for_in_ok.
  - apply extends_refl.
  - apply extends_trans.
  - intros x s w r w' _. apply Hbody.
Qed.

Lemma scan_anchor_extends c i cls m element_ results w r w' :
  scan_anchor c i cls m element_ results w = (Ok r, w') ->
  extends (fun d => country d = c /\ class d = cls /\ market d = m)
    results (fst r).
Proof.
  unfold scan_anchor. intros H.
  destruct (attrib_get element_ "href") as [href|].
  2:{ injection H as <- _. apply extends_refl. }
  destruct (contains (py "/indices/") href).
  2:{ injection H as <- _. apply extends_refl. }
  apply bind_ok in H as (title & w1 & _ & H).
  apply bind_ok in H as (txt & w2 & _ & H).
  apply bind_ok in H as (info & w3 & _ & H).
  injection H as <- _. simpl. eexists. split; [reflexivity|].
  constructor; simpl; auto.
Qed.

Lemma scan_anchors_extends c i cls m anchors results w r w' :
  for_in anchors (scan_anchor c i cls m) results w = (Ok r, w') ->
  extends (fun d => country d = c /\ class d = cls /\ market d = m) results r.
Proof.
  apply for_in_extends. intros; eapply scan_anchor_extends; eauto.
Qed.

Lemma pass1_extends tm results w r w' :
  pass1 tm results w = (Ok r, w') ->
  extends (fun d => market d = world_indices) results r.
Proof.
  unfold pass1. intros H. apply bind_ok in H as (file & w0 & _ & H).
  destruct file as [countries|]; [|discriminate].
  revert H. apply for_in_extends. clear. intros country0 s w r w' H.
  apply bind_ok in H as (s1 & w1 & H & Hr). injection Hr as <- _. simpl.
  revert H. apply for_in_extends. clear. intros flt s w r w' H.
  apply bind_ok in H as (req & w1 & _ & H).
  destruct (negb (status_code req =? 200)%Z); [discriminate|].
  apply bind_ok in H as (s1 & w2 & H & Hr). injection Hr as <- _. simpl.
  revert H. apply for_in_extends. clear. intros el s w r w' H.
  apply bind_ok in H as (id0 & w1 & _ & H).
  apply bind_ok in H as (s1 & w2 & H & Hr). injection Hr as <- _. simpl.
  apply scan_anchors_extends in H. revert H. apply extends_weaken. tauto.
Qed.

Lemma pass2_extends tm results w r w' :
  pass2 tm results w = (Ok r, w') ->
  extends (fun d => market d = global_indices) results r.
Proof.
  unfold pass2. intros H. apply bind_ok in H as (file & w0 & _ & H).
  apply bind_ok in H as (countries & w1 & _ & H).
  revert H. apply for_in_extends. clear. intros row s w r w' H.
  apply bind_ok in H as (s1 & w1 & H & Hr). injection Hr as <- _. simpl.
  revert H. apply for_in_extends. clear. intros flt s w r w' H.
  apply bind_ok in H as (rid & w0 & _ & H).
  apply bind_ok in H as (req & w1 & _ & H).
  destruct (negb (status_code req =? 200)%Z); [discriminate|].
  apply bind_ok in H as (s1 & w2 & H & Hr). injection Hr as <- _. simpl.
  revert H. apply for_in_extends. clear. intros el s w r w' H.
  apply bind_ok in H as (id0 & w1 & _ & H).
  apply bind_ok in H as (s1 & w2 & H & Hr). injection Hr as <- _. simpl.
  apply scan_anchors_extends in H. revert H. apply extends_weaken. tauto.
Qed.

(** A row of the third pass stores one country in all its records: the
    one [region_country] makes of the title of its last flag. *)
Lemma scan_row_3_extends cls elements_ results w r w' :
  scan_row_3 cls elements_ results w = (Ok r, w') ->
  exists region c w1,
    read_region (xpath elements_ ".//td[@class='flag']/span") = Some region
    /\ region_country (Some region) w1 = (Ok c, w1)
    /\ extends (fun d => country d = c /\ class d = cls
                         /\ market d = global_indices) results (fst r).
Proof.
  unfold scan_row_3. intros H.
  apply bind_ok in H as (id0 & w1 & _ & H).
  apply bind_ok in H as (c & w2 & Hreg & H).
  apply bind_ok in H as (s1 & w3 & H & Hr). injection Hr as <- _. simpl.
  destruct (read_region _) as [region|]; [|discriminate].
  exists region, c, w1. split; [reflexivity|].
  split.
  - revert Hreg. unfold region_country.
    repeat match goal with |- context [if ?b then _ else _] => destruct b end;
      unfold ret; intros Hreg; injection Hreg as <- <-; reflexivity.
  - eapply scan_anchors_extends; eauto.
Qed.

Lemma pass3_extends tm results w r w' :
  pass3 tm results w = (Ok r, w') ->
  extends (fun d => market d = global_indices) results r.
Proof.
  unfold pass3. apply for_in_extends. clear. intros flt s w r w' H.
  apply bind_ok in H as (req & w1 & _ & H).
  destruct (negb (status_code req =? 200)%Z); [discriminate|].
  destruct (xpath _ _) as [|el path_].
  { injection H as <- _. apply extends_refl. }
  apply bind_ok in H as (s1 & w2 & H & Hr). injection Hr as <- _. simpl.
  revert H. apply for_in_extends. clear. intros el s w r w' H.
  apply scan_row_3_extends in H as (region & c & w1 & _ & _ & H).
  revert H. apply extends_weaken. tauto.
Qed.

(** C10. In the third pass the region read from the flag cell of a row
    decides the country of the records of that row: the empty string gives
    ["world"], ["Euro Zone"] gives ["euro zone"], any other string gives
    its trimmed, lowercased, ASCII-folded form. *)
Theorem region_country_mapping :
  lower_spec lower ->
  (forall w, region_country (Some []) w = (Ok (py "world"), w))
  /\ (forall w, region_country (Some (py "Euro Zone")) w
                = (Ok (py "euro zone"), w))
  /\ (forall region w,
        region <> [] -> region <> py "Euro Zone" ->
        region_country (Some region) w
        = (Ok (unidecode (lower (strip region))), w))
  /\ (forall cls elements_ results w r w',
        scan_row_3 cls elements_ results w = (Ok r, w') ->
        exists region c new,
          read_region (xpath elements_ ".//td[@class='flag']/span")
          = Some region
          /\ region_country (Some region) w = (Ok c, w)
          /\ fst r = results ++ new
          /\ Forall (fun d => country d = c) new).
Proof.
  intros Hlower. split; [|split; [|split]].
  - reflexivity.
  - intros w. unfold region_country. cbn [str_eqb].
    rewrite str_eqb_refl. unfold ret. rewrite Hlower; reflexivity.
  - intros region w H1 H2. unfold region_country.
    apply str_eqb_neq in H1, H2. rewrite H1, H2. reflexivity.
  - intros cls elements_ results w r w' H.
    apply scan_row_3_extends in H as (region & c & w1 & Hr & Hc & new & Hn & HQ).
    exists region, c, new. split; [exact Hr|]. split; [|split; [exact Hn|]].
    + revert Hc. unfold region_country.
      repeat match goal with |- context [if ?b then _ else _] => destruct b end;
        unfold ret; intros Hc; injection Hc as <-; reflexivity.
    + eapply Forall_impl; [|exact HQ]. intros d (Hd & _). exact Hd.
Qed.

(** *** Every reply is checked *)

Lemma safe_ret {A} (a : A) : transport_safe (ret a).
Proof. intros w. exists []. rewrite app_nil_r. simpl. auto. Qed.

Lemma safe_raise {A} (e : exn) : transport_safe (@raise E A e).
Proof. intros w. exists []. rewrite app_nil_r. simpl. auto. Qed.

Lemma safe_bind {A B} (m : M E A) (k : A -> M E B) :
  transport_safe m -> (forall a, transport_safe (k a)) ->
  transport_safe (bind m k).
Proof.
  intros Hm Hk w. destruct (Hm w) as (t1 & L1 & C1 & D1). unfold bind.
  destruct (m w) as [[a|e] w1]; simpl in *.
  - destruct (Hk a w1) as (t2 & L2 & C2 & D2). exists (t1 ++ t2).
    rewrite L2, L1, app_assoc. split; [reflexivity|].
    split; [congruence|].
    destruct D1 as [F1|(pre & u & c & _ & _ & _ & Hc)]; [|discriminate].
    destruct D2 as [F2|(pre & u & c & -> & Fp & Hne & Hc)].
    + left. apply Forall_app; auto.
    + right. exists (t1 ++ pre), u, c. rewrite app_assoc.
      split; [reflexivity|]. split; [apply Forall_app; auto|]. auto.
  - exists t1. split; [exact L1|]. split; [exact C1|].
    destruct D1 as [F1|(pre & u & c & Ht & Fp & Hne & Hc)]; [left; exact F1|].
    right. exists pre, u, c. repeat split; auto. simpl. congruence.
Qed.

(** A request followed by the status guard of the module. *)
Lemma safe_get {A} (url : str) (k : Response -> M E A) :
  (forall req, transport_safe (k req)) ->
  transport_safe
    (bind (requests_get_ url)
       (fun req =>
          if negb (status_code req =? 200)%Z
          then raise (ConnectionError (status_code req))
          else k req)).
Proof.
  intros Hk w. unfold bind, requests_get_.
  destruct (requests_get (net w) url) as [req n].
  destruct (status_code req =? 200)%Z eqn:Hs; cbn [negb].
  - match goal with |- context [k req ?w1] =>
      destruct (Hk req w1) as (t2 & L2 & C2 & D2) end.
    exists ((url, status_code req) :: t2).
    rewrite L2. cbn [requests_log]. rewrite <- app_assoc.
    split; [reflexivity|]. split; [exact C2|].
    assert (Hok : served (url, status_code req)) by (apply Z.eqb_eq; exact Hs).
    destruct D2 as [F2|(pre & u & c & -> & Fp & Hne & Hc)].
    + left. constructor; assumption.
    + right. exists ((url, status_code req) :: pre), u, c.
      split; [reflexivity|]. split; [constructor; assumption|]. auto.
  - exists [(url, status_code req)]. simpl.
    split; [reflexivity|]. split; [reflexivity|]. right.
    exists [], url, (status_code req). apply Z.eqb_neq in Hs. auto.
Qed.

Lemma safe_for_in {A S} (xs : list A) (body : A -> S -> M E (S * ctl)) :
  (forall x s, transport_safe (body x s)) ->
  forall s, transport_safe (for_in xs body s).
Proof.
  intros Hbody. induction xs as [|x xs IH]; intros s; simpl.
  - apply safe_ret.
  - apply safe_bind; [apply Hbody|]. intros [s1 c]. simpl.
    destruct c; [apply IH | apply safe_ret].
Qed.

Lemma safe_deref {A} (o : option A) : transport_safe (deref o).
Proof. destruct o; [apply safe_ret | apply safe_raise]. Qed.

Lemma safe_read_index_countries : transport_safe read_index_countries.
Proof. intros w. exists []. rewrite app_nil_r. simpl. auto. Qed.

Lemma safe_read_global : transport_safe read_global_indices_countries.
Proof. intros w. exists []. rewrite app_nil_r. simpl. auto. Qed.

Lemma safe_write_index_countries t : transport_safe (write_index_countries t).
Proof. intros w. exists []. rewrite app_nil_r. simpl. auto. Qed.

Ltac safe :=
  repeat first
    [ apply safe_ret
    | apply safe_raise
    | apply safe_deref
    | apply safe_read_index_countries
    | apply safe_read_global
    | apply safe_write_index_countries
    | apply safe_get; intros
    | apply safe_for_in; intros
    | apply safe_bind; [|intros]
    | match goal with
      | |- transport_safe (match ?x with _ => _ end) => destruct x
      end
    | progress cbv zeta ].

Lemma safe_retrieve_index_info tag : transport_safe (retrieve_index_info tag).
Proof. unfold retrieve_index_info. safe. Qed.

Lemma safe_scan_anchor c i cls m element_ results :
  transport_safe (scan_anchor c i cls m element_ results).
Proof.
  unfold scan_anchor. safe; try apply safe_retrieve_index_info.
Qed.

Lemma safe_retrieve_index_countries tm :
  transport_safe (retrieve_index_countries tm).
Proof. unfold retrieve_index_countries. safe. Qed.

Lemma safe_pass1 tm results : transport_safe (pass1 tm results).
Proof. unfold pass1. safe; try apply safe_scan_anchor. Qed.

Lemma safe_pass2 tm results : transport_safe (pass2 tm results).
Proof.
  unfold pass2, row_id. safe;
    try apply safe_retrieve_index_countries; try apply safe_scan_anchor.
Qed.

Lemma safe_pass3 tm results : transport_safe (pass3 tm results).
Proof.
  unfold pass3, scan_row_3, region_country. safe; try apply safe_scan_anchor.
Qed.

(** *** The last step: duplicates, order, index, file *)

Lemma drop_duplicates_from_spec (seen : list str) (df : DataFrame IndexRecord) :
  let out := frame_rows (drop_duplicates_from seen df) in
  NoDup (map tag out)
  /\ (forall r, In r out ->
        ~ In (tag r) seen
        /\ find (fun x => str_eqb (tag x) (tag r)) (frame_rows df) = Some r)
  /\ (forall x, In x (frame_rows df) -> ~ In (tag x) seen ->
        exists r, In r out /\ tag r = tag x).
Proof.
  revert seen. induction df as [|[i r0] rest IH]; intros seen; simpl.
  - split; [constructor|]. split; [tauto|]. intros x [].
  - destruct (str_mem (tag r0) seen) eqn:Hm.
    + destruct (IH seen) as (Ha & Hb & Hc). apply str_mem_In in Hm.
      split; [exact Ha|]. split.
      * intros r Hr. destruct (Hb r Hr) as [Hs Hf]. split; [exact Hs|].
        destruct (str_eqb (tag r0) (tag r)) eqn:He; [|exact Hf].
        apply str_eqb_eq in He. rewrite He in Hm. contradiction.
      * intros x [<-|Hx] Hs; [contradiction|]. apply Hc; assumption.
    + destruct (IH (tag r0 :: seen)) as (Ha & Hb & Hc).
      apply str_mem_not_In in Hm. simpl. split; [|split].
      * constructor; [|exact Ha]. intros Hin. apply in_map_iff in Hin.
        destruct Hin as (r & Ht & Hr). destruct (Hb r Hr) as [Hs _].
        apply Hs. left. symmetry. exact Ht.
      * intros r [<-|Hr].
        -- split; [exact Hm|]. rewrite str_eqb_refl. reflexivity.
        -- destruct (Hb r Hr) as [Hs Hf]. split.
           ++ intros H. apply Hs. right. exact H.
           ++ destruct (str_eqb (tag r0) (tag r)) eqn:He; [|exact Hf].
              apply str_eqb_eq in He. exfalso. apply Hs. left. exact He.
      * intros x [<-|Hx] Hs.
        -- exists r0. auto.
        -- destruct (list_eq_dec N.eq_dec (tag r0) (tag x)) as [He|Hne].
           ++ exists r0. auto.
           ++ destruct (Hc x Hx) as (r & Hr & Ht).
              ** intros [H|H]; contradiction.
              ** exists r. auto.
Qed.

Lemma finalize_empty tm (w : World E) :
  finalize tm [] w = (Raise (KeyError "country"), w).
Proof. reflexivity. Qed.

Lemma finalize_run tm (results : list IndexRecord) (w : World E) :
  results <> [] ->
  let df :=
    reset_index (sort_values_country (drop_duplicates (frame_of results))) in
  fst (finalize tm results w) = Ok df
  /\ requests_log (snd (finalize tm results w)) = requests_log w
  /\ indices_csv (snd (finalize tm results w))
     = if tm then indices_csv w else Some (frame_rows df).
Proof.
  intros Hne. destruct results as [|x rs]; [contradiction|].
  unfold finalize. cbn [frame_of List.length seq combine].
  destruct tm; simpl; auto.
Qed.

(** The frame the last step builds from a non-empty [results]. *)
Lemma finalize_frame (results : list IndexRecord) :
  sort_values_spec sort_values_country ->
  let df :=
    reset_index (sort_values_country (drop_duplicates (frame_of results))) in
  NoDup (map tag (frame_rows df))
  /\ (forall r, In r (frame_rows df) ->
        find (fun x => str_eqb (tag x) (tag r)) results = Some r)
  /\ (forall x, In x results -> exists r, In r (frame_rows df) /\ tag r = tag x)
  /\ Sorted country_le (frame_rows df)
  /\ frame_index df = seq 0 (List.length df).
Proof.
  intros Hsort df.
  destruct (Hsort (drop_duplicates (frame_of results))) as [Hperm Hsorted].
  destruct (drop_duplicates_from_spec [] (frame_of results)) as (Ha & Hb & Hc).
  fold (drop_duplicates (frame_of results)) in Ha, Hb, Hc.
  rewrite frame_rows_of in Hb, Hc.
  assert (Hrows : frame_rows df
                  = frame_rows (sort_values_country
                                  (drop_duplicates (frame_of results)))).
  { unfold df, reset_index. apply frame_rows_of. }
  assert (Hp : Permutation (frame_rows df)
                 (frame_rows (drop_duplicates (frame_of results)))).
  { rewrite Hrows. unfold frame_rows. apply Permutation_map. exact Hperm. }
  split; [|split; [|split; [|split]]].
  - eapply Permutation_NoDup; [|exact Ha].
    apply Permutation_map. apply Permutation_sym. exact Hp.
  - intros r Hr. apply Hb. eapply Permutation_in; eauto.
  - intros x Hx. destruct (Hc x Hx) as (r & Hr & Ht); [tauto|].
    exists r. split; [|exact Ht].
    eapply Permutation_in; [apply Permutation_sym; exact Hp | exact Hr].
  - rewrite Hrows. exact Hsorted.
  - unfold df, reset_index. rewrite frame_index_of, frame_of_length.
    reflexivity.
Qed.

Lemma find_app_first {A} (p : A -> bool) (l1 l2 : list A) (x y : A) :
  In x l1 -> p x = true -> find p (l1 ++ l2) = Some y -> In y l1.
Proof.
  induction l1 as [|a l1 IH]; simpl; [tauto|].
  intros Hin Hp. destruct (p a) eqn:Ha.
  - intros H; injection H as <-. auto.
  - destruct Hin as [<-|Hin]; [congruence|]. intros H. right. eauto.
Qed.

(** C1. A run of [retrieve_indices] that returns: the table it returns has
    pairwise distinct tags; each row is the first record with its tag in
    scan order (first pass, then second, then third), every scanned tag has
    its row, and a tag met in the first pass keeps its first-pass record;
    the rows are in non-decreasing order of country under the index
    0, 1, 2, ...; and outside test mode this table is what [indices.csv]
    holds afterwards. *)
Theorem retrieve_indices_catalog tm (w w' : World E) df :
  sort_values_spec sort_values_country ->
  retrieve_indices tm w = (Ok df, w') ->
  exists r1 r2 r3 w1 w2 w3,
    pass1 tm [] w = (Ok r1, w1)
    /\ pass2 tm r1 w1 = (Ok (r1 ++ r2), w2)
    /\ pass3 tm (r1 ++ r2) w2 = (Ok ((r1 ++ r2) ++ r3), w3)
    /\ Forall (fun d => market d = world_indices) r1
    /\ Forall (fun d => market d = global_indices) (r2 ++ r3)
    /\ let results := (r1 ++ r2) ++ r3 in
       NoDup (map tag (frame_rows df))
       /\ (forall r, In r (frame_rows df) ->
             find (fun x => str_eqb (tag x) (tag r)) results = Some r)
       /\ (forall x, In x results ->
             exists r, In r (frame_rows df) /\ tag r = tag x)
       /\ (forall x, In x r1 ->
             exists r, In r (frame_rows df) /\ In r r1 /\ tag r = tag x)
       /\ Sorted country_le (frame_rows df)
       /\ frame_index df = seq 0 (List.length df)
       /\ (tm = false -> indices_csv w' = Some (frame_rows df)).
Proof.
  intros Hsort H. unfold retrieve_indices in H.
  apply bind_ok in H as (r1 & w1 & H1 & H).
  apply bind_ok in H as (r12 & w2 & H2 & H).
  apply bind_ok in H as (r123 & w3 & H3 & H).
  destruct (pass1_extends _ _ _ H1) as (n1 & E1 & F1). simpl in E1. subst n1.
  destruct (pass2_extends _ _ _ H2) as (r2 & -> & F2).
  destruct (pass3_extends _ _ _ H3) as (r3 & -> & F3).
  exists r1, r2, r3, w1, w2, w3.
  split; [exact H1|]. split; [exact H2|]. split; [exact H3|].
  split; [exact F1|]. split; [apply Forall_app; auto|].
  destruct ((r1 ++ r2) ++ r3) as [|x rs] eqn:Hres.
  { rewrite finalize_empty in H. discriminate. }
  rewrite <- Hres in *.
  assert (Hne : (r1 ++ r2) ++ r3 <> []) by (rewrite Hres; discriminate).
  destruct (finalize_run tm w3 Hne) as (Hdf & _ & Hcsv).
  rewrite H in Hdf, Hcsv. simpl in Hdf, Hcsv. injection Hdf as Hdf.
  destruct (finalize_frame ((r1 ++ r2) ++ r3) Hsort) as (Ha & Hb & Hc & Hd & He).
  rewrite <- Hdf in Ha, Hb, Hc, Hd, He, Hcsv.
  intros results.
  split; [exact Ha|]. split; [exact Hb|]. split; [exact Hc|].
  split; [|split; [exact Hd|split; [exact He|]]].
  - intros y Hy.
    destruct (Hc y) as (r & Hr & Ht).
    { rewrite <- app_assoc. apply in_or_app. left. exact Hy. }
    exists r. split; [exact Hr|]. split; [|exact Ht].
    pose proof (Hb r Hr) as Hf. unfold results in Hf.
    rewrite <- app_assoc in Hf.
    eapply find_app_first; [exact Hy | | exact Hf].
    apply str_eqb_eq. symmetry. exact Ht.
  - intros ->. exact Hcsv.
Qed.

(** C2. Whatever [retrieve_indices] requests, the requests of
    [retrieve_index_info] among them: when one of the requests of a build
    got a status other than 200, it was the last request of the build, the
    build raised the [ConnectionError] of that status, and [indices.csv] is
    as it was; a build that raises, whatever the error, leaves
    [indices.csv] as it was; a build that returns has written the whole
    table it returns (nothing in test mode). *)
Theorem retrieve_indices_transport_error tm (w : World E) :
  exists t,
    requests_log (snd (retrieve_indices tm w)) = requests_log w ++ t
    /\ (Exists (fun f => snd f <> 200%Z) t ->
        aborted t (fst (retrieve_indices tm w))
        /\ indices_csv (snd (retrieve_indices tm w)) = indices_csv w)
    /\ (forall e, fst (retrieve_indices tm w) = Raise e ->
                  indices_csv (snd (retrieve_indices tm w)) = indices_csv w)
    /\ (forall df, fst (retrieve_indices tm w) = Ok df ->
                   indices_csv (snd (retrieve_indices tm w))
                   = if tm then indices_csv w else Some (frame_rows df)).
Proof.
  set (crawl := bind (pass1 tm [])
                  (fun r => bind (pass2 tm r) (fun r => pass3 tm r))).
  assert (Hassoc : retrieve_indices tm w = bind crawl (finalize tm) w).
  { unfold retrieve_indices, crawl, bind.
    destruct (pass1 tm [] w) as [[r1|e] w1]; [|reflexivity].
    destruct (pass2 tm r1 w1) as [[r2|e] w2]; [|reflexivity].
    destruct (pass3 tm r2 w2) as [[r3|e] w3]; reflexivity. }
  assert (Hsafe : transport_safe crawl).
  { unfold crawl. apply safe_bind; [apply safe_pass1|]. intros r1.
    apply safe_bind; [apply safe_pass2 | apply safe_pass3]. }
  destruct (Hsafe w) as (t & Hlog & Hcsv & Hd).
  rewrite Hassoc. unfold bind.
  destruct (crawl w) as [[results|e] w1]; simpl in Hlog, Hcsv, Hd.
  - destruct Hd as [Hall|(pre & u & c & _ & _ & _ & Hc)]; [|discriminate].
    destruct results as [|x rs].
    + rewrite finalize_empty. simpl. exists t. split; [exact Hlog|].
      split; [|split; [auto | discriminate]].
      intros Hex. apply Exists_exists in Hex as (f & Hf & Hne).
      rewrite Forall_forall in Hall. elim Hne. apply Hall, Hf.
    + assert (Hne : x :: rs <> []) by discriminate.
      destruct (finalize_run tm w1 Hne) as (Hdf & Hl & Hc).
      exists t. rewrite Hl, Hc, Hdf, Hcsv. split; [exact Hlog|].
      split; [|split; [discriminate|]].
      * intros Hex. apply Exists_exists in Hex as (f & Hf & Hnf).
        rewrite Forall_forall in Hall. elim Hnf. apply Hall, Hf.
      * intros df Heq. injection Heq as <-. reflexivity.
  - simpl. exists t. split; [exact Hlog|].
    split; [|split; [auto | discriminate]].
    intros Hex. split; [|exact Hcsv].
    destruct Hd as [Hall|(pre & u & c & Ht & Fp & Hne & Hc)].
    + apply Exists_exists in Hex as (f & Hf & Hnf).
      rewrite Forall_forall in Hall. elim Hnf. apply Hall, Hf.
    + exists pre, u, c. repeat split; auto. injection Hc as ->. reflexivity.
Qed.

(** *** Pages and rows that lack a node *)

(** A detail page served with 200: [retrieve_index_info] returns, with no
    symbol when the heading is absent and no currency when the bold
    summary node is. *)
Lemma retrieve_index_info_absent_nodes (tag0 : str) (w : World E) :
  let url := py "https://www.investing.com/indices/" ++ tag0 in
  let req := fst (requests_get (net w) url) in
  let root_ := fromstring (text req) in
  status_code req = 200%Z ->
  exists info w',
    retrieve_index_info tag0 w = (Ok info, w')
    /\ (xpath root_ ".//div[@class='instrumentHead']/h1" = [] ->
        info_symbol info = None)
    /\ (xpath root_ ".//div[contains(@class, 'bottom')]/span[@class='bold']"
        = [] -> info_currency info = None).
Proof.
  intros url req root_ Hs. unfold retrieve_index_info, bind, requests_get_.
  fold url. subst root_ req.
  destruct (requests_get (net w) url) as [req n]. simpl in *.
  rewrite Hs. simpl. unfold ret. eexists _, _. split; [reflexivity|].
  simpl. split; intros ->; reflexivity.
Qed.

(** A row of the third pass without a flag span, or whose last flag span
    has no title: the row raises, nothing is added. *)
Lemma scan_row_3_absent_region cls elements_ results (w : World E) :
  read_region (xpath elements_ ".//td[@class='flag']/span") = None ->
  scan_row_3 cls elements_ results w = (Raise AttributeError, w).
Proof.
  intros Hr. unfold scan_row_3, bind, deref.
  destruct (attrib_get elements_ "id"); [|reflexivity].
  simpl. rewrite Hr. reflexivity.
Qed.

(** *** The country files *)

(** C6, amended. Without [index_countries.csv] the build raises the lookup
    error at once and leaves the world it started in: no lister runs,
    nothing is requested, nothing is written, whatever the network would
    have answered. *)
Theorem retrieve_indices_missing_country_file tm (w : World E) :
  index_countries_csv w = None ->
  retrieve_indices tm w = (Raise (IOError "ERR#0036"), w).
Proof.
  intros H. unfold retrieve_indices, pass1, bind, read_index_countries.
  rewrite H. reflexivity.
Qed.

End Proofs.

(* ================================================================== *)
(** ** The module on the small provider *)

Lemma str_leb_total (a b : str) : str_leb a b = false -> str_leb b a = true.
Proof.
  revert b; induction a as [|x a IH]; intros [|y b]; simpl;
    try discriminate; auto.
  destruct (N.ltb x y) eqn:Hlt; [discriminate|].
  destruct (N.eqb x y) eqn:Heq.
  - apply N.eqb_eq in Heq; subst y. rewrite Hlt, N.eqb_refl. apply IH.
  - intros _. apply N.ltb_ge in Hlt. apply N.eqb_neq in Heq.
    replace (N.ltb y x) with true; [reflexivity|].
    symmetry. apply N.ltb_lt. lia.
Qed.

Lemma insert_row_perm x l : Permutation (Mock.insert_row x l) (x :: l).
Proof.
  induction l as [|y l IH]; simpl; [apply Permutation_refl|].
  destruct (str_leb _ _); [apply Permutation_refl|].
  eapply Permutation_trans; [apply perm_skip; exact IH | apply perm_swap].
Qed.

Lemma insert_row_sorted x l :
  Sorted country_le (frame_rows l) ->
  Sorted country_le (frame_rows (Mock.insert_row x l)).
Proof.
  induction l as [|y l IH]; simpl; intros Hs.
  - constructor; constructor.
  - destruct (str_leb (country (snd x)) (country (snd y))) eqn:Hxy; simpl.
    + constructor; [exact Hs|]. constructor. exact Hxy.
    + apply Sorted_inv in Hs as [Hs Hhd]. constructor; [apply IH; exact Hs|].
      destruct l as [|z l]; simpl.
      * constructor. apply str_leb_total. exact Hxy.
      * destruct (str_leb (country (snd x)) (country (snd z))); simpl.
        -- constructor. apply str_leb_total. exact Hxy.
        -- constructor. apply HdRel_inv in Hhd. exact Hhd.
Qed.

Lemma sort_rows_spec : sort_values_spec Mock.sort_rows.
Proof.
  intros df. induction df as [|x df [IHp IHs]]; simpl.
  - split; constructor.
  - split.
    + eapply Permutation_trans; [apply insert_row_perm|].
      apply perm_skip. exact IHp.
    + apply insert_row_sorted. exact IHs.
Qed.

Lemma mock_lower_spec : lower_spec (@lower Mock.mock).
Proof. intros s _. reflexivity. Qed.

Lemma retrieve_indices_catalog_witness :
  sort_values_spec (@sort_values_country Mock.mock)
  /\ fst (@retrieve_indices Mock.mock false Mock.w_build) = Ok Mock.df_build
  /\ NoDup (map tag (frame_rows Mock.df_build))
  /\ (forall x, In x [Mock.rec_dax] ->
        exists r, In r (frame_rows Mock.df_build) /\ tag r = tag x)
  /\ Sorted country_le (frame_rows Mock.df_build)
  /\ frame_index Mock.df_build = [0; 1]
  /\ indices_csv (snd (@retrieve_indices Mock.mock false Mock.w_build))
     = Some (frame_rows Mock.df_build).
Proof.
  assert (Hrun : @retrieve_indices Mock.mock false Mock.w_build
                 = (Ok Mock.df_build,
                    snd (@retrieve_indices Mock.mock false Mock.w_build))).
  { vm_compute. reflexivity. }
  destruct (@retrieve_indices_catalog Mock.mock false Mock.w_build _
              Mock.df_build sort_rows_spec Hrun)
    as (r1 & r2 & r3 & w1 & w2 & w3 & H1 & _ & _ & _ & _ & Ha & _ & _ & Hw & Hs & Hi & Hc).
  vm_compute in H1. injection H1 as <- _.
  split; [exact sort_rows_spec|]. split; [rewrite Hrun; reflexivity|].
  split; [exact Ha|]. split; [|split; [exact Hs|split; [exact Hi|]]].
  - intros x Hx. destruct (Hw x) as (r & Hr & _ & Ht).
    + destruct Hx as [<-|[]]. left. reflexivity.
    + exists r. auto.
  - apply Hc. reflexivity.
Defined.

Lemma retrieve_indices_transport_error_witness :
  exists t,
    requests_log (snd (@retrieve_indices Mock.mock false Mock.w_404)) = t
    /\ Exists (fun f => snd f <> 200%Z) t
    /\ fst (@retrieve_indices Mock.mock false Mock.w_404)
       = Raise (ConnectionError 404)
    /\ indices_csv (snd (@retrieve_indices Mock.mock false Mock.w_404)) = None.
Proof.
  destruct (@retrieve_indices_transport_error Mock.mock false Mock.w_404)
    as (t & Hlog & Hmain & _).
  exists t. change (requests_log Mock.w_404 ++ t) with t in Hlog.
  assert (Hex : Exists (fun f : str * Z => snd f <> 200%Z) t).
  { rewrite <- Hlog. vm_compute. apply Exists_cons_tl, Exists_cons_hd.
    discriminate. }
  split; [exact Hlog|]. split; [exact Hex|].
  destruct (Hmain Hex) as [_ Hcsv].
  split; [|exact Hcsv]. vm_compute. reflexivity.
Defined.

Lemma indices_as_df_country_filter_witness :
  @index_countries_as_list Mock.mock Mock.w_catalog
  = (Ok [py "euro zone"; py "germany"], Mock.w_catalog)
  /\ @indices_as_df Mock.mock (Some (py "Germany")) Mock.w_catalog
     = (Ok (Some [(0, drop_tag_id Mock.rec_dax)]), Mock.w_catalog)
  /\ @indices_as_list Mock.mock (Some (py "Germany")) Mock.w_catalog
     = (Ok (Some [py "DAX"]), Mock.w_catalog)
  /\ @indices_as_df Mock.mock (Some (py "France")) Mock.w_catalog
     = (Ok None, Mock.w_catalog).
Proof.
  assert (Hl : @index_countries_as_list Mock.mock Mock.w_catalog
               = (Ok [py "euro zone"; py "germany"], Mock.w_catalog)).
  { vm_compute. reflexivity. }
  split; [exact Hl|].
  destruct (@indices_as_df_country_filter Mock.mock Mock.w_catalog
              (py "Germany") _ Hl) as (catalog & Hc & Hin & _).
  destruct (@indices_as_df_country_filter Mock.mock Mock.w_catalog
              (py "France") _ Hl) as (catalog' & Hc' & _ & Hout).
  injection Hc as <-. injection Hc' as <-.
  destruct Hin as [Hdf Hlist].
  { vm_compute. right. left. reflexivity. }
  destruct Hout as [Hnone _].
  { vm_compute. intros [H|[H|[]]]; discriminate. }
  split; [exact Hdf|]. split; [exact Hlist | exact Hnone].
Defined.

(** C4. [indices_as_dict] tests the country as it was passed against the
    country list, where [indices_as_df] tests its normalized form: for
    ["Germany"] on a catalog with a row of ["germany"], [indices_as_df]
    returns that row and [indices_as_dict] returns [None]. *)
Theorem indices_as_dict_raw_country_membership :
  @indices_as_df Mock.mock (Some (py "Germany")) Mock.w_catalog
  = (Ok (Some [(0, drop_tag_id Mock.rec_dax)]), Mock.w_catalog)
  /\ @indices_as_dict Mock.mock (Some (py "Germany")) None false Mock.w_catalog
     = (Ok None, Mock.w_catalog)
  /\ @indices_as_dict Mock.mock (Some (py "germany")) None false Mock.w_catalog
     = (Ok (Some (Records (to_dict query_columns [drop_tag_id Mock.rec_dax]))),
        Mock.w_catalog).
Proof. repeat split; vm_compute; reflexivity. Qed.

(** C5. A row of the third pass without a flag span: the build stops on
    [AttributeError] and writes no catalog. *)
Theorem retrieve_indices_absent_flag_raises :
  @xpath Mock.mock Mock.page_noflag ".//table[@id='cr_12']/tbody/tr"
  = [Mock.row "pair_172" [] [Mock.dax]]
  /\ fst (@retrieve_indices Mock.mock false Mock.w_noflag) = Raise AttributeError
  /\ indices_csv (snd (@retrieve_indices Mock.mock false Mock.w_noflag)) = None.
Proof. repeat split; vm_compute; reflexivity. Qed.

(** C7. A catalog file with no row: [index_countries_as_list] returns the
    empty list and raises nothing. *)
Theorem index_countries_as_list_no_rows :
  indices_csv Mock.w_norows = Some []
  /\ @index_countries_as_list Mock.mock Mock.w_norows = (Ok [], Mock.w_norows).
Proof. split; vm_compute; reflexivity. Qed.

(** Against C6 as stated: [index_countries.csv] is absent and the lister
    would find a country, yet the build raises the lookup error at once,
    having requested nothing. *)
Lemma missing_index_countries_file_counterexample :
  index_countries_csv Mock.w_nofile = None
  /\ fst (@retrieve_index_countries Mock.mock false Mock.w_nofile)
     = Ok [Mock.germany]
  /\ @retrieve_indices Mock.mock false Mock.w_nofile
     = (Raise (IOError "ERR#0036"), Mock.w_nofile)
  /\ requests_log (snd (@retrieve_indices Mock.mock false Mock.w_nofile)) = [].
Proof. repeat split; vm_compute; reflexivity. Qed.

Lemma retrieve_indices_missing_country_file_witness :
  index_countries_csv Mock.w_nofile = None
  /\ @retrieve_indices Mock.mock false Mock.w_nofile
     = (Raise (IOError "ERR#0036"), Mock.w_nofile).
Proof.
  split; [reflexivity|].
  apply (@retrieve_indices_missing_country_file Mock.mock false Mock.w_nofile).
  reflexivity.
Defined.

(** Against C8 as stated: without a catalog file the call builds and
    writes the catalog before it rejects the column. *)
Lemma indices_as_dict_rebuild_counterexample :
  ~ ((exists code,
        fst (@indices_as_dict Mock.mock None (Some [py "bogus"]) false
               Mock.w_build) = Raise (ValueError code))
     /\ indices_csv
          (snd (@indices_as_dict Mock.mock None (Some [py "bogus"]) false
                  Mock.w_build))
        = indices_csv Mock.w_build).
Proof. intros [_ H]. vm_compute in H. discriminate. Qed.

Lemma indices_as_dict_unknown_column_witness :
  indices_csv Mock.w_catalog = Some [Mock.rec_stoxx; Mock.rec_dax]
  /\ (exists c, In c [py "name"; py "tag"] /\ ~ In c query_columns)
  /\ @indices_as_dict Mock.mock (Some (py "germany"))
       (Some [py "name"; py "tag"]) true Mock.w_catalog
     = (Raise (ValueError "ERR#0023"), Mock.w_catalog).
Proof.
  assert (Hc : indices_csv Mock.w_catalog = Some [Mock.rec_stoxx; Mock.rec_dax])
    by reflexivity.
  assert (Hex : exists c, In c [py "name"; py "tag"] /\ ~ In c query_columns).
  { exists (py "tag"). split; [right; left; reflexivity|].
    intros H. apply str_mem_In in H. discriminate. }
  split; [exact Hc|]. split; [exact Hex|].
  exact (proj1 (@indices_as_dict_unknown_column Mock.mock Mock.w_catalog _
                  (Some (py "germany")) _ true Hc Hex)).
Defined.

Lemma region_country_mapping_witness :
  lower_spec (@lower Mock.mock)
  /\ fst (@scan_row_3 Mock.mock major_indices Mock.row_stoxx [] Mock.w_build)
     = Ok ([Mock.rec_stoxx], Continue)
  /\ exists region c new,
       read_region (E := Mock.mock)
         (@xpath Mock.mock Mock.row_stoxx ".//td[@class='flag']/span")
       = Some region
       /\ region = py "Euro Zone"
       /\ c = py "euro zone"
       /\ [Mock.rec_stoxx] = [] ++ new
       /\ Forall (fun d => country d = c) new.
Proof.
  destruct (@region_country_mapping Mock.mock mock_lower_spec)
    as (_ & Heuro & _ & Hrow).
  assert (Hrun : @scan_row_3 Mock.mock major_indices Mock.row_stoxx []
                   Mock.w_build
                 = (Ok ([Mock.rec_stoxx], Continue),
                    snd (@scan_row_3 Mock.mock major_indices Mock.row_stoxx []
                           Mock.w_build))).
  { vm_compute. reflexivity. }
  split; [exact mock_lower_spec|]. split; [rewrite Hrun; reflexivity|].
  destruct (Hrow _ _ _ _ _ _ Hrun) as (region & c & new & Hr & Hc & Hn & Hf).
  exists region, c, new.
  assert (Hreg : region = py "Euro Zone").
  { vm_compute in Hr. injection Hr as <-. reflexivity. }
  split; [exact Hr|]. split; [exact Hreg|]. split; [|split; [exact Hn|exact Hf]].
  subst region. rewrite Heuro in Hc. injection Hc as <-. reflexivity.
Defined.

(* ================================================================== *)
(** ** More on strings *)

Lemma lstrip_fixed (c : N) (r : str) :
  isspace c = false -> lstrip (c :: r) = c :: r.
Proof. intros H. simpl. rewrite H. reflexivity. Qed.

Lemma lstrip_idem (s : str) : lstrip (lstrip s) = lstrip s.
Proof.
  induction s as [|c s IH]; simpl; [reflexivity|].
  destruct (isspace c) eqn:Hc; [exact IH|]. apply lstrip_fixed. exact Hc.
Qed.

Lemma lstrip_snoc (l : str) (c : N) :
  isspace c = false -> lstrip (l ++ [c]) = lstrip l ++ [c].
Proof.
  intros Hc. induction l as [|x l IH]; simpl.
  - rewrite Hc. reflexivity.
  - destruct (isspace x); [exact IH | reflexivity].
Qed.

Lemma rstrip_cons (c : N) (r : str) :
  isspace c = false -> rstrip (c :: r) = c :: rstrip r.
Proof.
  intros Hc. unfold rstrip. simpl. rewrite lstrip_snoc by exact Hc.
  rewrite rev_app_distr. reflexivity.
Qed.

Lemma rstrip_idem (s : str) : rstrip (rstrip s) = rstrip s.
Proof. unfold rstrip. rewrite rev_involutive, lstrip_idem. reflexivity. Qed.

(** Trimming twice is trimming once. *)
Lemma strip_idem (s : str) : trimmed (strip s).
Proof.
  unfold trimmed, strip. destruct (lstrip s) as [|c r] eqn:Hl.
  - reflexivity.
  - pose proof (lstrip_head s Hl) as Hc.
    rewrite (rstrip_cons c r Hc), (lstrip_fixed c _ Hc), <- (rstrip_cons c r Hc).
    apply rstrip_idem.
Qed.

Lemma str_leb_trans (a b c : str) :
  str_leb a b = true -> str_leb b c = true -> str_leb a c = true.
Proof.
  revert b c. induction a as [|x a IH]; intros [|y b] [|z c]; simpl;
    try reflexivity; try discriminate.
  destruct (N.ltb_spec x y), (N.eqb_spec x y), (N.ltb_spec y z),
    (N.eqb_spec y z), (N.ltb_spec x z), (N.eqb_spec x z);
    try reflexivity; try discriminate; try lia.
  apply IH.
Qed.

(** A symbol the pattern gives holds characters of the class only. *)
Lemma extract_symbol_chars (title s : str) :
  extract_symbol title = Some s -> forallb symbol_char s = true.
Proof.
  unfold extract_symbol. destruct title as [|c title]; [discriminate|].
  destruct (pattern_search (strip (c :: title))) as [g|] eqn:Hp;
    [|discriminate].
  destruct (pattern_search_sound _ Hp) as (pre & tok & -> & Ht & _).
  rewrite (strip_parens tok Ht). intros H; injection H as <-. exact Ht.
Qed.

(** *** The last one decides *)

Lemma last_some_acc {A B} (get : A -> option B) (l : list A) (acc : option B) :
  last_some get l acc
  = match last_some get l None with Some y => Some y | None => acc end.
Proof.
  unfold last_some. revert acc. induction l as [|x l IH]; intros acc; simpl.
  - reflexivity.
  - rewrite IH. rewrite (IH (match get x with Some y => Some y | None => None end)).
    destruct (fold_left _ l None); [reflexivity|].
    destruct (get x); reflexivity.
Qed.

Lemma last_some_none {A B} (get : A -> option B) (l : list A) :
  last_some get l None = None <-> Forall (fun x => get x = None) l.
Proof.
  induction l as [|x l IH].
  - split; [constructor | reflexivity].
  - unfold last_some. simpl. fold (last_some get l (match get x with
                                     Some y => Some y | None => None end)).
    rewrite last_some_acc. split.
    + intros H. destruct (last_some get l None) eqn:Hl; [discriminate|].
      constructor; [destruct (get x); [discriminate | reflexivity]|].
      apply IH. reflexivity.
    + intros H. apply Forall_cons_iff in H as [Hx Hl]. apply IH in Hl.
      rewrite Hl, Hx. reflexivity.
Qed.

Lemma last_some_in {A B} (get : A -> option B) (l : list A) (y : B) :
  last_some get l None = Some y -> exists x, In x l /\ get x = Some y.
Proof.
  induction l as [|x l IH]; [discriminate|].
  unfold last_some. simpl. fold (last_some get l (match get x with
                                   Some y => Some y | None => None end)).
  rewrite last_some_acc. destruct (last_some get l None) as [z|] eqn:Hl.
  - intros H; injection H as ->. destruct (IH eq_refl) as (x0 & Hin & Hg).
    exists x0. split; [right; exact Hin | exact Hg].
  - destruct (get x) as [z|] eqn:Hx; [|discriminate].
    intros H; injection H as ->. exists x. split; [left; reflexivity | exact Hx].
Qed.

Lemma last_some_last {A B} (get : A -> option B) (pre post : list A)
    (x : A) (y : B) (acc : option B) :
  get x = Some y -> Forall (fun z => get z = None) post ->
  last_some get (pre ++ x :: post) acc = Some y.
Proof.
  intros Hx Hpost. unfold last_some. rewrite fold_left_app. simpl.
  rewrite Hx. fold (last_some get post (Some y)). rewrite last_some_acc.
  apply last_some_none in Hpost. rewrite Hpost. reflexivity.
Qed.

Section More.

Context {E : Env}.

Lemma bind_raised {A B} (m : M E A) (k : A -> M E B) (w w' : World E) e :
  bind m k w = (Raise e, w') ->
  m w = (Raise e, w') \/ exists a w1, m w = (Ok a, w1) /\ k a w1 = (Raise e, w').
Proof.
  unfold bind. destruct (m w) as [[a|e0] w1]; [eauto|].
  intros H; injection H as -> ->. left. reflexivity.
Qed.

Lemma scan_headings_last_some (path_ : list Html) :
  scan_headings path_ None
  = last_some (fun h => extract_symbol (text_content h)) path_ None.
Proof. reflexivity. Qed.

Lemma scan_currency_last_some (path_ : list Html) (acc : option str) :
  scan_currency path_ acc
  = last_some (fun b => match text_content b with [] => None | t => Some t end)
      path_ acc.
Proof.
  unfold scan_currency, last_some. revert acc.
  induction path_ as [|b path_ IH]; intros acc; simpl; [reflexivity|].
  rewrite IH. destruct (text_content b); reflexivity.
Qed.

(** X1. What [retrieve_index_info] returns, the headings and the bold
    summary nodes of the page being [headings] and [bolds]: the symbol is
    [None] exactly when no heading ends in a token, it is the token of the
    last heading that does, and it holds characters of the class only; the
    currency is [None] exactly when no bold node has text, and it is the
    text of the last one that has, as it stands. *)
Theorem retrieve_index_info_fields (tag0 : str) (w w' : World E)
    (info : IndexInfo) :
  retrieve_index_info tag0 w = (Ok info, w') ->
  let req :=
    fst (requests_get (net w) (py "https://www.investing.com/indices/" ++ tag0)) in
  let root_ := fromstring (text req) in
  let headings := xpath root_ ".//div[@class='instrumentHead']/h1" in
  let bolds :=
    xpath root_ ".//div[contains(@class, 'bottom')]/span[@class='bold']" in
  status_code req = 200%Z
  /\ (info_symbol info = None
      <-> Forall (fun h => extract_symbol (text_content h) = None) headings)
  /\ (forall s, info_symbol info = Some s -> forallb symbol_char s = true)
  /\ (forall pre h post s,
        headings = pre ++ h :: post ->
        extract_symbol (text_content h) = Some s ->
        Forall (fun z => extract_symbol (text_content z) = None) post ->
        info_symbol info = Some s)
  /\ (info_currency info = None <-> Forall (fun b => text_content b = []) bolds)
  /\ info_currency info <> Some []
  /\ (forall pre b post,
        bolds = pre ++ b :: post ->
        text_content b <> [] ->
        Forall (fun z => text_content z = []) post ->
        info_currency info = Some (text_content b)).
Proof.
  unfold retrieve_index_info, bind, requests_get_. intros H.
  destruct (requests_get (net w)
              (py "https://www.investing.com/indices/" ++ tag0)) as [req n].
  cbn [fst]. destruct (status_code req =? 200)%Z eqn:Hs; cbn [negb] in H;
    [|discriminate].
  unfold ret in H. injection H as <- _. cbn [info_symbol info_currency].
  rewrite scan_headings_last_some, scan_currency_last_some.
  split; [apply Z.eqb_eq; exact Hs|].
  split; [apply last_some_none|].
  split.
  { intros s Hsym. apply last_some_in in Hsym as (h & _ & Hh).
    eapply extract_symbol_chars; eauto. }
  split.
  { intros pre h post s -> Hh Hpost. apply last_some_last; assumption. }
  split.
  { rewrite last_some_none. split; intros Hall;
      (eapply Forall_impl; [|exact Hall]); intros b; cbv beta;
      destruct (text_content b); simpl; intros Hb;
      first [reflexivity | discriminate]. }
  split.
  { intros Hcur. apply last_some_in in Hcur as (b & _ & Hb).
    destruct (text_content b); discriminate. }
  intros pre b post -> Hb Hpost. apply last_some_last.
  - destruct (text_content b); [contradiction | reflexivity].
  - eapply Forall_impl; [|exact Hpost]. intros z ->. reflexivity.
Qed.

(** *** The country listers *)

(** The selector loop of [retrieve_index_countries]: it stops on the first
    option without a value, and adds one entry for each other option that
    is not the default one. *)
Lemma index_countries_loop (options : list Html) (acc : list CountryEntry)
    (w : World E) :
  for_in options
    (fun element countries =>
       match attrib_get element "value" with
       | None => raise AttributeError
       | Some v =>
           if negb (str_eqb v (py "/indices/world-indices")) then
             let obj :=
               {| ce_country :=
                    strip (replace (py "-") (py " ")
                             (replace (py "-indices") []
                                (replace (py "/indices/") [] v)));
                  ce_country_name :=
                    unidecode (lower (strip (text_content element))) |} in
             ret (countries ++ [obj], Continue)
           else ret (countries, Continue)
       end)
    acc w
  = (if forallb (fun el => match attrib_get el "value" with
                           | Some _ => true | None => false end) options
     then Ok (acc ++ index_country_entries options)
     else Raise AttributeError, w).
Proof.
  revert acc. induction options as [|el options IH]; intros acc.
  - simpl. rewrite app_nil_r. reflexivity.
  - cbn [for_in forallb index_country_entries flat_map]. unfold bind at 1.
    destruct (attrib_get el "value") as [v|]; [|reflexivity].
    destruct (negb (str_eqb v (py "/indices/world-indices")));
      cbv zeta; unfold ret at 1; cbn [snd fst andb]; rewrite IH;
      fold (index_country_entries options);
      destruct (forallb _ options); try reflexivity.
    + rewrite <- app_assoc. reflexivity.
Qed.

(** The selector loop of [retrieve_global_indices_countries]. *)
Lemma global_countries_loop (tm : bool) (options : list Html)
    (acc : list GlobalCountryEntry) (w : World E) :
  let run :=
    for_in options
      (fun element countries =>
         match attrib_get element "value" with
         | None => raise AttributeError
         | Some v =>
             if negb (str_eqb v (py "/indices/global-indices")) then
               let obj :=
                 {| g_id := replace (py "/indices/global-indices?c_id=") [] v;
                    g_country :=
                      unidecode (lower (strip (text_content element))) |} in
               ret (countries ++ [obj], if tm then Break else Continue)
             else ret (countries, Continue)
         end)
      acc w in
  snd run = w
  /\ (forall e, fst run = Raise e -> e = AttributeError)
  /\ (forall r, fst run = Ok r ->
        if tm then r = acc ++ firstn 1 (global_country_entries options)
        else r = acc ++ global_country_entries options
             /\ Forall (fun el => attrib_get el "value" <> None) options).
Proof.
  revert acc. induction options as [|el options IH]; intros acc run.
  - subst run. simpl. split; [reflexivity|]. split; [discriminate|].
    intros r H; injection H as <-. rewrite app_nil_r.
    destruct tm; [reflexivity | split; [reflexivity | constructor]].
  - subst run. cbn [for_in global_country_entries flat_map]. unfold bind at 1.
    destruct (attrib_get el "value") as [v|] eqn:Hv.
    2:{ simpl. split; [reflexivity|]. split; [|discriminate].
        intros e H; injection H as <-. reflexivity. }
    destruct (negb (str_eqb v (py "/indices/global-indices"))); cbv zeta;
      unfold ret at 1; cbn [snd fst].
    + destruct tm.
      * unfold ret. simpl. split; [reflexivity|]. split; [discriminate|].
        intros r H; injection H as <-. reflexivity.
      * specialize (IH (acc ++ [ {| g_id := replace (py "/indices/global-indices?c_id=") [] v;
                                    g_country := unidecode (lower (strip (text_content el))) |} ])).
        cbv zeta in IH. destruct IH as (Hw & He & Hr).
        split; [exact Hw|]. split; [exact He|].
        intros r H. destruct (Hr r H) as [-> Hall].
        fold (global_country_entries options).
        rewrite <- app_assoc. split; [reflexivity|].
        constructor; [rewrite Hv; discriminate | exact Hall].
    + specialize (IH acc). cbv zeta in IH. destruct IH as (Hw & He & Hr).
      split; [exact Hw|]. split; [exact He|].
      intros r H. specialize (Hr r H). fold (global_country_entries options).
      destruct tm; [exact Hr|]. destruct Hr as [-> Hall].
      split; [reflexivity|].
      constructor; [rewrite Hv; discriminate | exact Hall].
Qed.

Lemma retrieve_index_countries_ok (tm : bool) (w w' : World E)
    (cs : list CountryEntry) :
  retrieve_index_countries tm w = (Ok cs, w') ->
  let url := py "https://www.investing.com/indices/" in
  let req := fst (requests_get (net w) url) in
  let options :=
    xpath (fromstring (text req)) "//select[@name='country']/option" in
  status_code req = 200%Z
  /\ requests_log w' = requests_log w ++ [(url, 200%Z)]
  /\ Forall (fun el => attrib_get el "value" <> None) options
  /\ cs = index_country_entries options
  /\ cs <> []
  /\ index_countries_csv w' = (if tm then index_countries_csv w else Some cs)
  /\ global_indices_countries_csv w' = global_indices_countries_csv w
  /\ indices_csv w' = indices_csv w.
Proof.
  unfold retrieve_index_countries, requests_get_. unfold bind at 1.
  destruct (requests_get (net w) (py "https://www.investing.com/indices/"))
    as [req n]. cbn [fst].
  destruct (status_code req =? 200)%Z eqn:Hs; cbn [negb]; [|discriminate].
  apply Z.eqb_eq in Hs. cbv zeta. unfold bind at 1.
  rewrite index_countries_loop. cbn [app].
  destruct (forallb _ _) eqn:Hall; [|discriminate].
  destruct (index_country_entries _) as [|c cs0] eqn:Hentries;
    [discriminate|].
  cbn [List.length Nat.leb]. intros H.
  assert (Hv : Forall (fun el => attrib_get el "value" <> None)
                 (xpath (fromstring (text req))
                    "//select[@name='country']/option")).
  { rewrite forallb_forall in Hall. apply Forall_forall. intros el Hel.
    specialize (Hall el Hel). destruct (attrib_get el "value"); discriminate. }
  destruct tm; cbn [negb] in H; unfold bind, ret, write_index_countries in H;
    injection H as <- <-; cbn; rewrite Hs;
    repeat split; auto; discriminate.
Qed.

(** X2. A call of [retrieve_index_countries] that returns: it made one
    request, answered 200; every option of the selector has a value; the
    list returned has one entry for each option that is not the default
    one, in page order, and is not empty; outside test mode
    [index_countries.csv] now holds that list and in test mode it is as it
    was; the other two files are as they were. *)
Theorem retrieve_index_countries_returns (tm : bool) (w w' : World E)
    (cs : list CountryEntry) :
  retrieve_index_countries tm w = (Ok cs, w') ->
  let url := py "https://www.investing.com/indices/" in
  let req := fst (requests_get (net w) url) in
  let options :=
    xpath (fromstring (text req)) "//select[@name='country']/option" in
  status_code req = 200%Z
  /\ requests_log w' = requests_log w ++ [(url, 200%Z)]
  /\ Forall (fun el => attrib_get el "value" <> None) options
  /\ cs = index_country_entries options
  /\ cs <> []
  /\ index_countries_csv w' = (if tm then index_countries_csv w else Some cs)
  /\ global_indices_countries_csv w' = global_indices_countries_csv w
  /\ indices_csv w' = indices_csv w.
Proof. apply retrieve_index_countries_ok. Qed.

(** X3. A call of [retrieve_global_indices_countries] that returns: the
    request was answered 200 and the list is not empty.  In test mode the
    list is the entry of the first option that is not the default one, and
    no file is written; otherwise every option has a value, the list has
    the entries of all the options that are not the default one, in page
    order, and [global_indices_countries.csv] now holds it.  The other two
    files are as they were. *)
Theorem retrieve_global_indices_countries_returns (tm : bool) (w w' : World E)
    (cs : list GlobalCountryEntry) :
  retrieve_global_indices_countries tm w = (Ok cs, w') ->
  let url := py "https://www.investing.com/indices/global-indices" in
  let req := fst (requests_get (net w) url) in
  let options :=
    xpath (fromstring (text req)) "//select[@name='country']/option" in
  status_code req = 200%Z
  /\ requests_log w' = requests_log w ++ [(url, 200%Z)]
  /\ cs <> []
  /\ (if tm
      then cs = firstn 1 (global_country_entries options)
           /\ global_indices_countries_csv w' = global_indices_countries_csv w
      else cs = global_country_entries options
           /\ Forall (fun el => attrib_get el "value" <> None) options
           /\ global_indices_countries_csv w' = Some cs)
  /\ index_countries_csv w' = index_countries_csv w
  /\ indices_csv w' = indices_csv w.
Proof.
  unfold retrieve_global_indices_countries, requests_get_. unfold bind at 1.
  destruct (requests_get (net w)
              (py "https://www.investing.com/indices/global-indices"))
    as [req n]. cbn [fst].
  destruct (status_code req =? 200)%Z eqn:Hs; cbn [negb]; [|discriminate].
  apply Z.eqb_eq in Hs. cbv zeta. unfold bind at 1.
  match goal with |- context [for_in ?o ?b ?a ?w0] =>
    pose proof (global_countries_loop tm o a w0) as Hloop;
    cbv zeta in Hloop; destruct Hloop as (Hw & _ & Hr);
    destruct (for_in o b a w0) as [[r|e] w1] eqn:Hrun
  end; [|discriminate].
  cbn [fst snd] in Hw, Hr. subst w1. specialize (Hr r eq_refl).
  cbn [app] in Hr.
  destruct r as [|c r0]; [discriminate|]. cbn [List.length Nat.leb].
  intros H.
  destruct tm; cbn [negb] in H;
    unfold bind, ret, write_global_indices_countries in H;
    injection H as <- <-; cbn; rewrite Hs.
  - repeat split; auto; discriminate.
  - destruct Hr as [Hr Hall]. repeat split; auto; discriminate.
Qed.

Lemma retrieve_index_countries_raises (tm : bool) (w w' : World E) e :
  retrieve_index_countries tm w = (Raise e, w') ->
  index_countries_csv w' = index_countries_csv w
  /\ global_indices_countries_csv w' = global_indices_countries_csv w
  /\ indices_csv w' = indices_csv w.
Proof.
  unfold retrieve_index_countries, requests_get_. unfold bind at 1.
  destruct (requests_get (net w) (py "https://www.investing.com/indices/"))
    as [req n].
  destruct (status_code req =? 200)%Z eqn:Hs; cbn [negb].
  2:{ intros H; injection H as <- <-. cbn. auto. }
  cbv zeta. unfold bind at 1. rewrite index_countries_loop. cbn [app].
  destruct (forallb _ _).
  2:{ intros H; injection H as <- <-. cbn. auto. }
  destruct (index_country_entries _) as [|c cs0].
  { intros H; injection H as <- <-. cbn. auto. }
  cbn [List.length Nat.leb]. destruct tm; discriminate.
Qed.

Lemma retrieve_global_indices_countries_raises (tm : bool) (w w' : World E) e :
  retrieve_global_indices_countries tm w = (Raise e, w') ->
  index_countries_csv w' = index_countries_csv w
  /\ global_indices_countries_csv w' = global_indices_countries_csv w
  /\ indices_csv w' = indices_csv w.
Proof.
  unfold retrieve_global_indices_countries, requests_get_. unfold bind at 1.
  destruct (requests_get (net w)
              (py "https://www.investing.com/indices/global-indices"))
    as [req n].
  destruct (status_code req =? 200)%Z eqn:Hs; cbn [negb].
  2:{ intros H; injection H as <- <-. cbn. auto. }
  cbv zeta. unfold bind at 1.
  match goal with |- context [for_in ?o ?b ?a ?w0] =>
    pose proof (global_countries_loop tm o a w0) as Hloop;
    cbv zeta in Hloop; destruct Hloop as (Hw & _ & _);
    destruct (for_in o b a w0) as [[r|e0] w1] eqn:Hrun
  end; cbn [fst snd] in Hw; subst w1.
  2:{ intros H; injection H as <- <-. cbn. auto. }
  destruct r as [|c r0].
  { intros H; injection H as <- <-. cbn. auto. }
  cbn [List.length Nat.leb]. destruct tm; discriminate.
Qed.

(** X4. A lister that raises, whatever it raises, has written none of the
    three files. *)
Theorem listers_raise_write_nothing (tm : bool) (w w' : World E) (e : exn) :
  retrieve_index_countries tm w = (Raise e, w')
  \/ retrieve_global_indices_countries tm w = (Raise e, w') ->
  index_countries_csv w' = index_countries_csv w
  /\ global_indices_countries_csv w' = global_indices_countries_csv w
  /\ indices_csv w' = indices_csv w.
Proof.
  intros [H|H].
  - eapply retrieve_index_countries_raises; eauto.
  - eapply retrieve_global_indices_countries_raises; eauto.
Qed.

(** *** What a computation leaves alone *)

Lemma preserves_ret {A X} (f : World E -> X) (a : A) : preserves f (ret a).
Proof. intros w. reflexivity. Qed.

Lemma preserves_raise {A X} (f : World E -> X) (e : exn) :
  preserves f (@raise E A e).
Proof. intros w. reflexivity. Qed.

Lemma preserves_bind {A B X} (f : World E -> X) (m : M E A) (k : A -> M E B) :
  preserves f m -> (forall a, preserves f (k a)) -> preserves f (bind m k).
Proof.
  intros Hm Hk w. unfold bind. specialize (Hm w).
  destruct (m w) as [[a|e] w1]; simpl in *; [|exact Hm].
  rewrite (Hk a w1). exact Hm.
Qed.

Lemma preserves_for_in {A S X} (f : World E -> X) (xs : list A)
    (body : A -> S -> M E (S * ctl)) :
  (forall x s, preserves f (body x s)) ->
  forall s, preserves f (for_in xs body s).
Proof.
  intros Hbody. induction xs as [|x xs IH]; intros s; simpl.
  - apply preserves_ret.
  - apply preserves_bind; [apply Hbody|]. intros [s1 c]. simpl.
    destruct c; [apply IH | apply preserves_ret].
Qed.

Lemma preserves_deref {A X} (f : World E -> X) (o : option A) :
  preserves f (deref o).
Proof. destruct o; [apply preserves_ret | apply preserves_raise]. Qed.

Lemma preserves_get_countries url :
  preserves index_countries_csv (requests_get_ url).
Proof.
  intros w. unfold requests_get_. destruct (requests_get (net w) url).
  reflexivity.
Qed.

Lemma preserves_get_globals url :
  preserves global_indices_countries_csv (requests_get_ url).
Proof.
  intros w. unfold requests_get_. destruct (requests_get (net w) url).
  reflexivity.
Qed.

Lemma preserves_read_countries {X} (f : World E -> X) :
  preserves f read_index_countries.
Proof. intros w. reflexivity. Qed.

Lemma preserves_read_globals {X} (f : World E -> X) :
  preserves f read_global_indices_countries.
Proof. intros w. reflexivity. Qed.

Lemma preserves_write_countries t :
  preserves global_indices_countries_csv (write_index_countries t).
Proof. intros w. reflexivity. Qed.

Ltac frame :=
  repeat first
    [ apply preserves_ret
    | apply preserves_raise
    | apply preserves_deref
    | apply preserves_get_countries
    | apply preserves_get_globals
    | apply preserves_read_countries
    | apply preserves_read_globals
    | apply preserves_write_countries
    | apply preserves_for_in; intros
    | apply preserves_bind; [|intros]
    | match goal with
      | |- preserves _ (match ?x with _ => _ end) => destruct x
      end
    | progress cbv zeta ].

Lemma scan_anchor_keeps_countries c i cls m element_ results :
  preserves index_countries_csv (scan_anchor c i cls m element_ results).
Proof. unfold scan_anchor, retrieve_index_info. frame. Qed.

Lemma scan_anchor_keeps_globals c i cls m element_ results :
  preserves global_indices_countries_csv
    (scan_anchor c i cls m element_ results).
Proof. unfold scan_anchor, retrieve_index_info. frame. Qed.

Lemma pass1_keeps_countries tm results :
  preserves index_countries_csv (pass1 tm results).
Proof. unfold pass1. frame; apply scan_anchor_keeps_countries. Qed.

Lemma pass1_keeps_globals tm results :
  preserves global_indices_countries_csv (pass1 tm results).
Proof. unfold pass1. frame; apply scan_anchor_keeps_globals. Qed.

Lemma pass3_keeps_countries tm results :
  preserves index_countries_csv (pass3 tm results).
Proof.
  unfold pass3, scan_row_3, region_country.
  frame; apply scan_anchor_keeps_countries.
Qed.

Lemma pass3_keeps_globals tm results :
  preserves global_indices_countries_csv (pass3 tm results).
Proof.
  unfold pass3, scan_row_3, region_country.
  frame; apply scan_anchor_keeps_globals.
Qed.

Lemma pass2_keeps_globals tm results :
  preserves global_indices_countries_csv (pass2 tm results).
Proof.
  unfold pass2, row_id, retrieve_index_countries.
  frame; apply scan_anchor_keeps_globals.
Qed.

(** The second pass when its file is there: the loop over its rows. *)
Lemma pass2_present tm results (w : World E) gs :
  global_indices_countries_csv w = Some gs ->
  exists body,
    pass2 tm results w
    = for_in (map (@inl GlobalCountryEntry CountryEntry) gs) body results w
    /\ (forall row s, preserves index_countries_csv (body (inl row) s)).
Proof.
  intros Hg. unfold pass2. eexists. split.
  - unfold bind at 1. unfold read_global_indices_countries at 1. rewrite Hg.
    unfold bind at 1. unfold ret at 1. cbn [iterrows]. reflexivity.
  - intros row s; cbv beta; unfold row_id.
    frame; apply scan_anchor_keeps_countries.
Qed.

Lemma for_in_map_preserves {A B S X} (f : World E -> X) (g : A -> B)
    (xs : list A) (body : B -> S -> M E (S * ctl)) :
  (forall x s, preserves f (body (g x) s)) ->
  forall s, preserves f (for_in (map g xs) body s).
Proof.
  intros Hbody. induction xs as [|x xs IH]; intros s; simpl.
  - apply preserves_ret.
  - apply preserves_bind; [apply Hbody|]. intros [s1 c]. simpl.
    destruct c; [apply IH | apply preserves_ret].
Qed.

(** The second pass when its file is absent and the lister returns: the
    frame of the lister has no ['id'] column. *)
Lemma pass2_lister_frame tm results (w w2 : World E) t :
  global_indices_countries_csv w = None ->
  retrieve_index_countries false w = (Ok t, w2) ->
  pass2 tm results w = (Raise (KeyError "id"), w2).
Proof.
  intros Hg Hl. pose proof Hl as Hok.
  apply retrieve_index_countries_ok in Hok. cbv zeta in Hok.
  destruct Hok as (_ & _ & _ & _ & Hne & _).
  destruct t as [|c t]; [contradiction|].
  unfold pass2. unfold bind at 1. unfold read_global_indices_countries at 1.
  rewrite Hg. unfold bind at 1. unfold bind at 1. rewrite Hl.
  unfold ret at 1. reflexivity.
Qed.

Lemma retrieve_indices_ok_files (tm : bool) (w w' : World E) df :
  retrieve_indices tm w = (Ok df, w') ->
  exists cs gs,
    index_countries_csv w = Some cs
    /\ global_indices_countries_csv w = Some gs
    /\ index_countries_csv w' = Some cs
    /\ global_indices_countries_csv w' = Some gs
    /\ (tm = true -> indices_csv w' = indices_csv w).
Proof.
  intros H. unfold retrieve_indices in H.
  apply bind_ok in H as (r1 & w1 & H1 & H).
  apply bind_ok in H as (r2 & w2 & H2 & H).
  apply bind_ok in H as (r3 & w3 & H3 & H).
  destruct (index_countries_csv w) as [cs|] eqn:Hc.
  2:{ unfold pass1, bind, read_index_countries in H1. rewrite Hc in H1.
      discriminate. }
  pose proof (pass1_keeps_countries tm [] w) as K1. rewrite H1 in K1.
  pose proof (pass1_keeps_globals tm [] w) as G1. rewrite H1 in G1.
  simpl in K1, G1.
  destruct (global_indices_countries_csv w) as [gs|] eqn:Hg.
  2:{ destruct (retrieve_index_countries false w1) as [[t|e] wl] eqn:Hl.
      - eapply (pass2_lister_frame tm r1) in Hl; [|exact G1].
        rewrite Hl in H2. discriminate.
      - unfold pass2 in H2. unfold bind at 1 in H2.
        unfold read_global_indices_countries at 1 in H2. rewrite G1 in H2.
        unfold bind at 1 in H2. unfold bind at 1 in H2. rewrite Hl in H2.
        discriminate. }
  pose proof G1 as Hp2. apply (pass2_present tm r1) in Hp2.
  destruct Hp2 as (body & Hp2 & Hk).
  assert (K2 : preserves index_countries_csv (for_in (map inl gs) body r1))
    by (apply for_in_map_preserves; exact Hk).
  specialize (K2 w1).
  rewrite <- Hp2, H2 in K2.
  pose proof (pass2_keeps_globals tm r1 w1) as G2. rewrite H2 in G2.
  pose proof (pass3_keeps_countries tm r2 w2) as K3. rewrite H3 in K3.
  pose proof (pass3_keeps_globals tm r2 w2) as G3. rewrite H3 in G3.
  simpl in K2, G2, K3, G3.
  assert (Hf : index_countries_csv w' = index_countries_csv w3
               /\ global_indices_countries_csv w' = global_indices_countries_csv w3
               /\ (tm = true -> indices_csv w' = indices_csv w3)).
  { unfold finalize in H. destruct (frame_of r3); [discriminate|].
    cbv zeta in H. destruct tm; cbn [negb] in H;
      unfold bind, ret, write_indices in H; injection H as _ <-; cbn; auto.
    repeat split; auto. discriminate. }
  destruct Hf as (Kf & Gf & Cf).
  exists cs, gs. split; [reflexivity|]. split; [reflexivity|].
  split; [congruence|]. split; [congruence|].
  intros Htm. rewrite (Cf Htm).
  destruct (safe_pass3 tm r2 w2) as (t3 & _ & C3 & _).
  destruct (safe_pass2 tm r1 w1) as (t2 & _ & C2 & _).
  destruct (safe_pass1 tm [] w) as (t1 & _ & C1 & _).
  rewrite H3 in C3. rewrite H2 in C2. rewrite H1 in C1. simpl in *.
  congruence.
Qed.

(** X5. A build that returns had both country files, and they are as they
    were; in test mode [indices.csv] is as it was too. *)
Theorem retrieve_indices_needs_country_files (tm : bool) (w w' : World E) df :
  retrieve_indices tm w = (Ok df, w') ->
  exists cs gs,
    index_countries_csv w = Some cs
    /\ global_indices_countries_csv w = Some gs
    /\ index_countries_csv w' = Some cs
    /\ global_indices_countries_csv w' = Some gs
    /\ (tm = true -> indices_csv w' = indices_csv w).
Proof. apply retrieve_indices_ok_files. Qed.

(** X6. A build started without [global_indices_countries.csv] never
    returns.  When its first pass is done and the lister it then calls
    returns, the build stops on [KeyError] for ['id'], having replaced
    [index_countries.csv] by the table of the lister, in test mode too. *)
Theorem retrieve_indices_without_globals_file (tm : bool) (w : World E) :
  global_indices_countries_csv w = None ->
  (exists e, fst (retrieve_indices tm w) = Raise e)
  /\ (forall r1 w1 t w2,
        pass1 tm [] w = (Ok r1, w1) ->
        retrieve_index_countries false w1 = (Ok t, w2) ->
        retrieve_indices tm w = (Raise (KeyError "id"), w2)
        /\ index_countries_csv w2 = Some t
        /\ indices_csv w2 = indices_csv w).
Proof.
  intros Hg. split.
  - destruct (retrieve_indices tm w) as [[df|e] w'] eqn:H; [|simpl; eauto].
    apply retrieve_indices_ok_files in H. destruct H as (cs & gs & _ & Hgs & _).
    congruence.
  - intros r1 w1 t w2 H1 Hl.
    pose proof (pass1_keeps_globals tm [] w) as G1. rewrite H1 in G1.
    simpl in G1. rewrite Hg in G1.
    pose proof Hl as Hp2. eapply (pass2_lister_frame tm r1) in Hp2;
      [|exact G1].
    unfold retrieve_indices. rewrite (bind_run _ _ _ H1).
    rewrite (bind_raise _ _ _ Hp2).
    split; [reflexivity|].
    apply retrieve_index_countries_ok in Hl. cbv zeta in Hl.
    destruct Hl as (_ & _ & _ & _ & _ & Hfile & _ & Hcsv).
    split; [exact Hfile|]. rewrite Hcsv.
    destruct (safe_pass1 tm [] w) as (t1 & _ & C1 & _). rewrite H1 in C1.
    exact C1.
Qed.

(** *** The records of the scan *)

Lemma retrieve_index_info_ok (tag0 : str) (w w' : World E) info :
  retrieve_index_info tag0 w = (Ok info, w') ->
  (forall s, info_symbol info = Some s -> forallb symbol_char s = true)
  /\ info_currency info <> Some [].
Proof.
  unfold retrieve_index_info, bind, requests_get_.
  destruct (requests_get (net w) _) as [req n].
  destruct (negb _); [discriminate|]. unfold ret. intros H; injection H as <- _.
  cbn [info_symbol info_currency].
  rewrite scan_headings_last_some, scan_currency_last_some. split.
  - intros s Hs. apply last_some_in in Hs as (h & _ & Hh).
    eapply extract_symbol_chars; eauto.
  - intros Hcur. apply last_some_in in Hcur as (b & _ & Hb).
    destruct (text_content b); discriminate.
Qed.

Lemma scan_anchor_wf c i cls m element_ results (w w' : World E) r :
  scan_anchor c i cls m element_ results w = (Ok r, w') ->
  extends (fun d => text_wf d /\ country d = c /\ class d = cls /\ market d = m)
    results (fst r).
Proof.
  unfold scan_anchor. intros H.
  destruct (attrib_get element_ "href") as [href|].
  2:{ injection H as <- _. apply extends_refl. }
  destruct (contains (py "/indices/") href).
  2:{ injection H as <- _. apply extends_refl. }
  apply bind_ok in H as (title & w1 & _ & H).
  apply bind_ok in H as (txt & w2 & _ & H).
  apply bind_ok in H as (info & w3 & Hinfo & H).
  apply retrieve_index_info_ok in Hinfo as [Hsym Hcur].
  injection H as <- _. simpl. eexists. split; [reflexivity|].
  constructor; [|constructor]. simpl.
  split; [|auto]. unfold text_wf. simpl.
  split; [apply strip_idem|]. split; [apply strip_idem|]. auto.
Qed.

Lemma country_1_renamed (c : str) :
  country_1 c <> py "uk" /\ country_1 c <> py "usa".
Proof.
  unfold country_1. destruct (str_eqb c (py "uk")) eqn:Huk.
  - split; discriminate.
  - destruct (str_eqb c (py "usa")) eqn:Husa.
    + split; discriminate.
    + apply str_eqb_neq in Huk, Husa. auto.
Qed.

Lemma pass1_wf tm results (w w' : World E) r :
  pass1 tm results w = (Ok r, w') ->
  extends (fun d => text_wf d /\ market_wf d) results r.
Proof.
  unfold pass1. intros H. apply bind_ok in H as (file & w0 & _ & H).
  destruct file as [countries|]; [|discriminate].
  revert H. apply for_in_extends. clear. intros country0 s w r w' H.
  apply bind_ok in H as (s1 & w1 & H & Hr). injection Hr as <- _. simpl.
  revert s w s1 w1 H.
  apply for_in_ok with (R := extends (fun d => text_wf d /\ market_wf d));
    [apply extends_refl | apply extends_trans|].
  clear. intros flt s w r w' Hflt H.
  apply bind_ok in H as (req & w1 & _ & H).
  destruct (negb (status_code req =? 200)%Z); [discriminate|].
  apply bind_ok in H as (s1 & w2 & H & Hr). injection Hr as <- _. simpl.
  revert H. apply for_in_extends. intros el s0 w0 r0 w0' H.
  apply bind_ok in H as (id0 & w3 & _ & H).
  apply bind_ok in H as (s2 & w4 & H & Hr). injection Hr as <- _. simpl.
  revert H. apply for_in_extends. intros a s3 w5 r5 w5' H.
  apply scan_anchor_wf in H. revert H. apply extends_weaken.
  intros d (Ht & Hc & Hcls & Hm). split; [exact Ht|].
  unfold market_wf. rewrite Hm, Hc, Hcls.
  split; [|apply country_1_renamed].
  simpl in Hflt.
  destruct Hflt as [<-|[<-|[<-|[<-|[]]]]]; exact I.
Qed.

Lemma scan_anchors_global_wf c i cls anchors results (w w' : World E) r :
  for_in anchors (scan_anchor c i cls global_indices) results w = (Ok r, w') ->
  extends (fun d => text_wf d /\ market_wf d) results r.
Proof.
  apply for_in_extends. intros a s w0 r0 w0' H.
  apply scan_anchor_wf in H. revert H. apply extends_weaken.
  intros d (Ht & _ & _ & Hm). split; [exact Ht|].
  unfold market_wf. rewrite Hm. exact I.
Qed.

Lemma pass2_wf tm results (w w' : World E) r :
  pass2 tm results w = (Ok r, w') ->
  extends (fun d => text_wf d /\ market_wf d) results r.
Proof.
  unfold pass2. intros H. apply bind_ok in H as (file & w0 & _ & H).
  apply bind_ok in H as (countries & w1 & _ & H).
  revert H. apply for_in_extends. clear. intros row s w r w' H.
  apply bind_ok in H as (s1 & w1 & H & Hr). injection Hr as <- _. simpl.
  revert H. apply for_in_extends. clear. intros flt s w r w' H.
  apply bind_ok in H as (rid & w0 & _ & H).
  apply bind_ok in H as (req & w1 & _ & H).
  destruct (negb (status_code req =? 200)%Z); [discriminate|].
  apply bind_ok in H as (s1 & w2 & H & Hr). injection Hr as <- _. simpl.
  revert H. apply for_in_extends. clear. intros el s w r w' H.
  apply bind_ok in H as (id0 & w1 & _ & H).
  apply bind_ok in H as (s1 & w2 & H & Hr). injection Hr as <- _. simpl.
  eapply scan_anchors_global_wf; eauto.
Qed.

Lemma pass3_wf tm results (w w' : World E) r :
  pass3 tm results w = (Ok r, w') ->
  extends (fun d => text_wf d /\ market_wf d) results r.
Proof.
  unfold pass3. apply for_in_extends. clear. intros flt s w r w' H.
  apply bind_ok in H as (req & w1 & _ & H).
  destruct (negb (status_code req =? 200)%Z); [discriminate|].
  destruct (xpath _ _) as [|el path_].
  { injection H as <- _. apply extends_refl. }
  apply bind_ok in H as (s1 & w2 & H & Hr). injection Hr as <- _. simpl.
  revert H. apply for_in_extends. clear. intros el s w r w' H.
  unfold scan_row_3 in H.
  apply bind_ok in H as (id0 & w1 & _ & H).
  apply bind_ok in H as (c & w2 & _ & H).
  apply bind_ok in H as (s1 & w3 & H & Hr). injection Hr as <- _. simpl.
  eapply scan_anchors_global_wf; eauto.
Qed.

(** Every row of the table a build returns is a record of the scan. *)
Lemma retrieve_indices_rows_wf (tm : bool) (w w' : World E) df :
  sort_values_spec sort_values_country ->
  retrieve_indices tm w = (Ok df, w') ->
  Forall (fun d => text_wf d /\ market_wf d) (frame_rows df).
Proof.
  intros Hsort H. unfold retrieve_indices in H.
  apply bind_ok in H as (r1 & w1 & H1 & H).
  apply bind_ok in H as (r2 & w2 & H2 & H).
  apply bind_ok in H as (r3 & w3 & H3 & H).
  apply pass1_wf in H1 as (n1 & E1 & F1). simpl in E1. subst r1.
  apply pass2_wf in H2 as (n2 & -> & F2).
  apply pass3_wf in H3 as (n3 & -> & F3).
  assert (Hall : Forall (fun d => text_wf d /\ market_wf d) ((n1 ++ n2) ++ n3)).
  { apply Forall_app. split; [apply Forall_app; split; assumption | assumption]. }
  destruct ((n1 ++ n2) ++ n3) as [|x rs] eqn:Hres.
  { rewrite finalize_empty in H. discriminate. }
  rewrite <- Hres in *.
  assert (Hne : (n1 ++ n2) ++ n3 <> []) by (rewrite Hres; discriminate).
  destruct (finalize_run tm w3 Hne) as (Hdf & _ & _).
  rewrite H in Hdf. simpl in Hdf. injection Hdf as Hdf.
  destruct (finalize_frame ((n1 ++ n2) ++ n3) Hsort) as (_ & Hb & _).
  rewrite <- Hdf in Hb. apply Forall_forall. intros d Hd.
  apply Hb in Hd. apply find_some in Hd as [Hd _].
  rewrite Forall_forall in Hall. apply Hall, Hd.
Qed.

(** X8. In the table a build returns, the name and the full name of every
    row are trimmed, a symbol holds only letters, digits and [. - _ =] (no
    parenthesis is left), and a currency is never the empty string. *)
Theorem retrieve_indices_text_fields (tm : bool) (w w' : World E) df :
  sort_values_spec sort_values_country ->
  retrieve_indices tm w = (Ok df, w') ->
  Forall text_wf (frame_rows df).
Proof.
  intros Hsort H. eapply Forall_impl; [|eapply retrieve_indices_rows_wf; eauto].
  intros d [Hd _]. exact Hd.
Qed.

(** X9. In the table a build returns, a row of the market [world_indices]
    has one of the four classes of the first pass (never [bonds] nor
    [commodities]), and its country is neither ["uk"] nor ["usa"]. *)
Theorem retrieve_indices_world_rows (tm : bool) (w w' : World E) df :
  sort_values_spec sort_values_country ->
  retrieve_indices tm w = (Ok df, w') ->
  Forall
    (fun d =>
       market d = world_indices ->
       class d <> bonds /\ class d <> commodities
       /\ country d <> py "uk" /\ country d <> py "usa")
    (frame_rows df).
Proof.
  intros Hsort H. eapply Forall_impl; [|eapply retrieve_indices_rows_wf; eauto].
  intros d [_ Hd] Hm. unfold market_wf in Hd. rewrite Hm in Hd.
  destruct Hd as (Hc & Huk & Husa).
  split; [intros Hb; rewrite Hb in Hc; exact Hc|].
  split; [intros Hb; rewrite Hb in Hc; exact Hc|]. auto.
Qed.

(** *** After a build *)

(** The table a build returns, from the records of its scan. *)
Lemma retrieve_indices_final (tm : bool) (w w' : World E) df :
  retrieve_indices tm w = (Ok df, w') ->
  exists results,
    results <> []
    /\ df = reset_index
              (sort_values_country (drop_duplicates (frame_of results)))
    /\ (tm = false -> indices_csv w' = Some (frame_rows df)).
Proof.
  intros H. unfold retrieve_indices in H.
  apply bind_ok in H as (r1 & w1 & H1 & H).
  apply bind_ok in H as (r2 & w2 & H2 & H).
  apply bind_ok in H as (r3 & w3 & H3 & H).
  destruct r3 as [|x rs] eqn:Hres.
  { rewrite finalize_empty in H. discriminate. }
  rewrite <- Hres in *.
  assert (Hne : r3 <> []) by (rewrite Hres; discriminate).
  destruct (finalize_run tm w3 Hne) as (Hdf & _ & Hcsv).
  rewrite H in Hdf, Hcsv. simpl in Hdf, Hcsv. injection Hdf as Hdf.
  exists r3. split; [exact Hne|]. split; [exact Hdf|].
  intros ->. rewrite Hcsv, <- Hdf. reflexivity.
Qed.

Lemma drop_duplicates_nonempty (df : DataFrame IndexRecord) :
  df <> [] -> drop_duplicates df <> [].
Proof.
  destruct df as [|[i r] df]; [congruence|]. intros _.
  unfold drop_duplicates. simpl. discriminate.
Qed.

(** X7. A build never returns an empty table: a table it returns has at
    least one row, and when its three passes return without a single
    record it raises a [KeyError] and [indices.csv] is as it was. *)
Theorem retrieve_indices_never_empty (tm : bool) (w : World E) :
  sort_values_spec sort_values_country ->
  (forall df w', retrieve_indices tm w = (Ok df, w') -> frame_rows df <> [])
  /\ (forall w1 w2 w3,
        pass1 tm [] w = (Ok [], w1) ->
        pass2 tm [] w1 = (Ok [], w2) ->
        pass3 tm [] w2 = (Ok [], w3) ->
        (exists key, retrieve_indices tm w = (Raise (KeyError key), w3))
        /\ indices_csv w3 = indices_csv w).
Proof.
  intros Hsort. split.
  - intros df w' H. apply retrieve_indices_final in H as (results & Hne & Hdf & _).
    destruct (Hsort (drop_duplicates (frame_of results))) as [Hperm _].
    intros Hrows.
    apply (@drop_duplicates_nonempty (frame_of results)).
    + intros Hnil. apply Hne. rewrite <- (frame_rows_of results), Hnil.
      reflexivity.
    + apply Permutation_length in Hperm.
      assert (Hlen : List.length (frame_rows df) = 0)
        by (rewrite Hrows; reflexivity).
      rewrite Hdf in Hlen. unfold reset_index in Hlen.
      rewrite frame_rows_of in Hlen. unfold frame_rows in Hlen.
      rewrite length_map, Hperm in Hlen.
      apply length_zero_iff_nil. exact Hlen.
  - intros w1 w2 w3 H1 H2 H3. split.
    + exists "country"%string. unfold retrieve_indices.
      rewrite (bind_run _ _ _ H1), (bind_run _ _ _ H2), (bind_run _ _ _ H3).
      apply finalize_empty.
    + destruct (safe_pass1 tm [] w) as (t1 & _ & C1 & _).
      destruct (safe_pass2 tm [] w1) as (t2 & _ & C2 & _).
      destruct (safe_pass3 tm [] w2) as (t3 & _ & C3 & _).
      rewrite H1 in C1. rewrite H2 in C2. rewrite H3 in C3. simpl in *.
      congruence.
Qed.

Lemma load_indices_absent (w : World E) :
  indices_csv w = None ->
  load_indices w
  = match retrieve_indices false w with
    | (Ok df, w') => (Ok (map (fun ir => (fst ir, drop_tag_id (snd ir))) df), w')
    | (Raise e, w') => (Raise e, w')
    end.
Proof.
  intros H. unfold load_indices. unfold bind at 1.
  unfold read_indices at 1. rewrite H. unfold bind.
  destruct (retrieve_indices false w) as [[df|e] w']; reflexivity.
Qed.

Lemma cells_all (r : QueryRow) :
  map (fun c => (c, cell c r)) (unique query_columns)
  = [ (py "country", VStr (q_country r)); (py "name", VStr (q_name r));
      (py "full_name", VStr (q_full_name r));
      (py "symbol", opt_val (q_symbol r));
      (py "currency", opt_val (q_currency r));
      (py "class", VStr (class_name (q_class r)));
      (py "market", VStr (market_name (q_market r))) ].
Proof. reflexivity. Qed.

Lemma opt_val_inj (a b : option str) : opt_val a = opt_val b -> a = b.
Proof. destruct a, b; simpl; congruence. Qed.

Lemma class_name_inj (a b : IndexClass) : class_name a = class_name b -> a = b.
Proof. destruct a, b; intros H; try reflexivity; discriminate. Qed.

Lemma market_name_inj (a b : Market) : market_name a = market_name b -> a = b.
Proof. destruct a, b; intros H; try reflexivity; discriminate. Qed.

Lemma row_record_inj (r1 r2 : QueryRow) :
  map (fun c => (c, cell c r1)) (unique query_columns)
  = map (fun c => (c, cell c r2)) (unique query_columns) ->
  r1 = r2.
Proof.
  rewrite !cells_all. destruct r1, r2. cbn [q_country q_name q_full_name
    q_symbol q_currency q_class q_market].
  intros H. injection H as H1 H2 H3 H4 H5 H6 H7.
  apply opt_val_inj in H4, H5.
  apply class_name_inj in H6. apply market_name_inj in H7.
  subst. reflexivity.
Qed.

Lemma map_injective {A B} (f : A -> B) (l1 l2 : list A) :
  (forall a b, f a = f b -> a = b) -> map f l1 = map f l2 -> l1 = l2.
Proof.
  intros Hf. revert l2. induction l1 as [|x l1 IH]; intros [|y l2]; simpl;
    try discriminate; [reflexivity|].
  intros H. injection H as Hx Hl. apply Hf in Hx. apply IH in Hl.
  subst. reflexivity.
Qed.

(** The records of all the columns tell the rows apart. *)
Lemma to_dict_all_inj (rows1 rows2 : list QueryRow) :
  to_dict query_columns rows1 = to_dict query_columns rows2 -> rows1 = rows2.
Proof. unfold to_dict. apply map_injective. exact row_record_inj. Qed.

(** X10. With the catalog file in place, exporting with the default
    columns returns one record of seven cells for each row of the file, in
    file order, and loses nothing but tag and id: records of all the
    columns that are equal come from rows that are equal. *)
Theorem export_all_columns (w : World E) catalog :
  indices_csv w = Some catalog ->
  indices_as_dict None None false w
  = (Ok (Some (Records (to_dict query_columns (map drop_tag_id catalog)))), w)
  /\ List.length (to_dict query_columns (map drop_tag_id catalog))
     = List.length catalog
  /\ Forall (fun record => map fst record = query_columns)
       (to_dict query_columns (map drop_tag_id catalog))
  /\ (forall rows,
        to_dict query_columns rows
        = to_dict query_columns (map drop_tag_id catalog) ->
        rows = map drop_tag_id catalog).
Proof.
  intros Hc. pose proof (load_indices_present w Hc) as Hload.
  split; [|split; [|split]].
  - unfold indices_as_dict. rewrite (bind_run _ _ _ Hload).
    change (forallb (fun column => str_mem column query_columns) query_columns)
      with true.
    cbn [negb]. unfold ret. rewrite frame_rows_map, frame_rows_of. reflexivity.
  - unfold to_dict. rewrite !length_map. reflexivity.
  - unfold to_dict. apply Forall_forall. intros record Hin.
    apply in_map_iff in Hin as (r & <- & _). rewrite cells_all. reflexivity.
  - intros rows. apply to_dict_all_inj.
Qed.

(** X11. A reader called without a catalog file starts a build.  When the
    build raises, the reader raises the same error and leaves the world
    the build left.  When the build returns and no country was asked for,
    the reader answers from the table the build returned, in the world the
    build left: its rows without tag and id under the index 0, 1, ..., their
    names, their records. *)
Theorem readers_rebuild (w : World E) (c : option str)
    (cols : option (list str)) (j : bool) :
  indices_csv w = None ->
  match retrieve_indices false w with
  | (Raise e, w') =>
      indices_as_df c w = (Raise e, w')
      /\ indices_as_list c w = (Raise e, w')
      /\ indices_as_dict c cols j w = (Raise e, w')
  | (Ok df, w') =>
      indices_as_df None w
      = (Ok (Some (frame_of (map drop_tag_id (frame_rows df)))), w')
      /\ indices_as_list None w = (Ok (Some (map name (frame_rows df))), w')
      /\ indices_as_dict None None false w
         = (Ok (Some (Records
                        (to_dict query_columns
                           (map drop_tag_id (frame_rows df))))), w')
  end.
Proof.
  intros Hnone. pose proof (load_indices_absent w Hnone) as Hload.
  destruct (retrieve_indices false w) as [[df|e] w'] eqn:Hrun.
  - unfold indices_as_df, indices_as_list, indices_as_dict.
    rewrite !(bind_run _ _ _ Hload).
    change (forallb (fun column => str_mem column query_columns) query_columns)
      with true.
    cbn [negb]. unfold ret, reset_index.
    rewrite !frame_rows_map, map_map. auto.
  - unfold indices_as_df, indices_as_list, indices_as_dict.
    rewrite !(bind_raise _ _ _ Hload). auto.
Qed.

(** *** The country list *)

Lemma StronglySorted_filter {A} (R : A -> A -> Prop) (p : A -> bool)
    (l : list A) :
  StronglySorted R l -> StronglySorted R (filter p l).
Proof.
  induction 1 as [|x l Hs IH Hall]; simpl; [constructor|].
  destruct (p x); [|exact IH]. constructor; [exact IH|].
  apply Forall_forall. intros y Hy. apply filter_In in Hy as [Hy _].
  rewrite Forall_forall in Hall. apply Hall, Hy.
Qed.

(** The distinct values of an ordered column are strictly ordered. *)
Lemma unique_sorted (l : list str) :
  StronglySorted (fun a b => str_leb a b = true) l ->
  StronglySorted str_lt (unique l).
Proof.
  induction 1 as [|x l Hs IH Hall]; simpl; [constructor|].
  constructor; [apply StronglySorted_filter; exact IH|].
  apply Forall_forall. intros y Hy. apply filter_In in Hy as [Hy Hne].
  apply (proj1 (unique_In y l)) in Hy. rewrite Forall_forall in Hall.
  split; [apply Hall, Hy|]. apply negb_true_iff, str_eqb_neq in Hne. exact Hne.
Qed.

Lemma sorted_countries (rows : list IndexRecord) :
  Sorted country_le rows ->
  StronglySorted (fun a b => str_leb a b = true) (map country rows).
Proof.
  intros Hs. apply Sorted_StronglySorted.
  - intros a b c. apply str_leb_trans.
  - induction Hs as [|x l Hs IH Hhd]; simpl; constructor; [exact IH|].
    destruct Hhd; simpl; constructor. assumption.
Qed.

(** X12. When the rows of the catalog file are in non-decreasing order of
    country, [index_countries_as_list] returns the countries in strictly
    ascending order. *)
Theorem countries_of_sorted_catalog (w : World E) catalog :
  indices_csv w = Some catalog ->
  Sorted country_le catalog ->
  exists l,
    index_countries_as_list w = (Ok l, w)
    /\ StronglySorted str_lt l
    /\ (forall c, In c l <-> In c (map country catalog)).
Proof.
  intros Hc Hs. exists (unique (map country catalog)).
  split; [apply index_countries_as_list_present; exact Hc|].
  split; [|intros c; apply unique_In].
  apply unique_sorted, sorted_countries. exact Hs.
Qed.

Lemma str_eqb_sym (a b : str) : str_eqb a b = str_eqb b a.
Proof.
  destruct (str_eqb a b) eqn:Hab; symmetry.
  - apply str_eqb_eq in Hab. subst. apply str_eqb_refl.
  - apply str_eqb_neq. apply str_eqb_neq in Hab. congruence.
Qed.

Lemma filter_filter {A} (p q : A -> bool) (l : list A) :
  filter p (filter q l) = filter (fun x => q x && p x) l.
Proof.
  induction l as [|x l IH]; simpl; [reflexivity|].
  destruct (q x); simpl; [destruct (p x)|]; rewrite IH; reflexivity.
Qed.

(** The distinct values of a list cut in two: those of the first part,
    then those of the second that the first does not have. *)
Lemma unique_app (a b : list str) :
  unique (a ++ b)
  = unique a ++ filter (fun y => negb (str_mem y a)) (unique b).
Proof.
  induction a as [|x a IH]; simpl.
  - symmetry. apply forallb_filter_id. apply forallb_forall. reflexivity.
  - f_equal. rewrite IH, filter_app, filter_filter. f_equal.
    apply filter_ext. intros y. rewrite (str_eqb_sym y x), negb_orb.
    apply andb_comm.
Qed.

(** X16. [index_countries_as_list] on a catalog that is there changes
    nothing and returns each country once, at the place of its first row:
    before a country stand the distinct countries of the rows that
    precede its first row, in their own order, and nothing else. *)
Theorem index_countries_as_list_order (w : World E) catalog (pre post : list str)
    (x : str) :
  indices_csv w = Some catalog ->
  map country catalog = pre ++ x :: post ->
  ~ In x pre ->
  exists post',
    index_countries_as_list w = (Ok (unique pre ++ x :: post'), w)
    /\ NoDup (unique pre ++ x :: post')
    /\ (forall c, In c (unique pre ++ x :: post') <-> In c (map country catalog)).
Proof.
  intros Hc Hsplit Hx. apply str_mem_not_In in Hx.
  assert (Heq : unique (map country catalog)
                = unique pre ++ x ::
                    filter (fun y => negb (str_mem y pre))
                      (filter (fun y => negb (str_eqb x y)) (unique post))).
  { rewrite Hsplit, unique_app. cbn [unique filter]. rewrite Hx. reflexivity. }
  eexists. rewrite (index_countries_as_list_present w Hc), Heq.
  split; [reflexivity|]. rewrite <- Heq. split; [apply unique_NoDup|].
  intros c. apply unique_In.
Qed.

(** *** The readers on a catalog that is there *)

(** X13. With the catalog file in place the three readers, whatever the
    country, the columns and the flag, leave the world as it was: they
    request nothing and write nothing.  Without a country [indices_as_df]
    returns every row of the file, in file order, without tag and id, under
    the index 0, 1, ..., and [indices_as_list] returns their names. *)
Theorem readers_on_catalog (w : World E) catalog (c : option str)
    (cols : option (list str)) (j : bool) :
  indices_csv w = Some catalog ->
  snd (indices_as_df c w) = w
  /\ snd (indices_as_list c w) = w
  /\ snd (indices_as_dict c cols j w) = w
  /\ indices_as_df None w
     = (Ok (Some (frame_of (map drop_tag_id catalog))), w)
  /\ frame_index (frame_of (map drop_tag_id catalog))
     = seq 0 (List.length catalog)
  /\ indices_as_list None w = (Ok (Some (map name catalog)), w).
Proof.
  intros Hc.
  pose proof (load_indices_present w Hc) as Hload.
  pose proof (index_countries_as_list_present w Hc) as Hl.
  split; [|split; [|split; [|split; [|split]]]].
  - unfold indices_as_df. rewrite (bind_run _ _ _ Hload).
    destruct c as [c|]; [|reflexivity].
    rewrite (bind_run _ _ _ Hl). destruct (str_mem _ _); reflexivity.
  - unfold indices_as_list. rewrite (bind_run _ _ _ Hload).
    destruct c as [c|]; [|reflexivity].
    rewrite (bind_run _ _ _ Hl). destruct (str_mem _ _); reflexivity.
  - unfold indices_as_dict. rewrite (bind_run _ _ _ Hload).
    destruct (negb _); [reflexivity|].
    destruct c as [c|]; [|destruct j; reflexivity].
    rewrite (bind_run _ _ _ Hl).
    destruct (str_mem _ _); [destruct j|]; reflexivity.
  - unfold indices_as_df. rewrite (bind_run _ _ _ Hload). unfold ret, reset_index.
    rewrite frame_rows_map, frame_rows_of. reflexivity.
  - rewrite frame_index_of, length_map. reflexivity.
  - unfold indices_as_list. rewrite (bind_run _ _ _ Hload). unfold ret.
    rewrite frame_rows_map, frame_rows_of, map_map. reflexivity.
Qed.

(** X14. [as_json] changes the wrapping of the result and nothing else:
    whatever the world, the call with [as_json=True] leaves the world the
    call with [as_json=False] leaves, raises what it raises, and returns
    [json.dumps] of the records it returns ([None] for [None]). *)
Theorem indices_as_dict_as_json (w : World E) (c : option str)
    (cols : option (list str)) :
  indices_as_dict c cols true w
  = (match fst (indices_as_dict c cols false w) with
     | Ok r => Ok (as_document r)
     | Raise e => Raise e
     end,
     snd (indices_as_dict c cols false w)).
Proof.
  unfold indices_as_dict, bind.
  destruct (load_indices w) as [[indices|e] w1]; [|reflexivity].
  destruct (negb _); [reflexivity|].
  destruct c as [c|]; [|reflexivity].
  destruct (index_countries_as_list w1) as [[countries|e] w2]; [|reflexivity].
  destruct (str_mem c countries); reflexivity.
Qed.

(** X15. With the catalog file in place and at least one column asked
    for, all of them among the seven, [indices_as_dict] on a country that
    its own normalization leaves unchanged returns the records of the rows
    [indices_as_df] returns for it, and [None] where [indices_as_df]
    returns [None]. *)
Theorem indices_as_dict_follows_df (w : World E) catalog (c : str)
    (cols : list str) :
  indices_csv w = Some catalog ->
  cols <> [] ->
  forallb (fun column => str_mem column query_columns) cols = true ->
  unidecode (lower c) = c ->
  match fst (indices_as_df (Some c) w) with
  | Ok (Some df) =>
      In c (map country catalog)
      /\ indices_as_dict (Some c) (Some cols) false w
         = (Ok (Some (Records (to_dict cols (frame_rows df)))), w)
  | Ok None =>
      ~ In c (map country catalog)
      /\ indices_as_dict (Some c) (Some cols) false w = (Ok None, w)
  | Raise _ => False
  end.
Proof.
  intros Hc _ Hcols Hn.
  pose proof (load_indices_present w Hc) as Hload.
  pose proof (index_countries_as_list_present w Hc) as Hl.
  unfold indices_as_df, indices_as_dict.
  rewrite !(bind_run _ _ _ Hload), Hcols. cbn [negb].
  rewrite !(bind_run _ _ _ Hl), Hn.
  destruct (str_mem c (unique (map country catalog))) eqn:Hm; unfold ret;
    cbn [fst].
  - split; [apply unique_In, str_mem_In, Hm|].
    unfold reset_index. rewrite frame_rows_of. reflexivity.
  - split; [|reflexivity]. intros Hin. apply unique_In, str_mem_In in Hin.
    congruence.
Qed.

End More.

(* ================================================================== *)
(** ** More of the module on the small provider *)

Lemma retrieve_index_info_fields_witness :
  fst (@retrieve_index_info Mock.mock (py "germany-30") Mock.w_build)
  = Ok {| info_currency := Some (py "EUR"); info_symbol := Some (py "GDAXI") |}
  /\ forallb symbol_char (py "GDAXI") = true
  /\ Some (py "EUR") <> Some [].
Proof.
  assert (Hrun : @retrieve_index_info Mock.mock (py "germany-30") Mock.w_build
                 = (Ok {| info_currency := Some (py "EUR");
                          info_symbol := Some (py "GDAXI") |},
                    snd (@retrieve_index_info Mock.mock (py "germany-30")
                           Mock.w_build))).
  { vm_compute. reflexivity. }
  pose proof (@retrieve_index_info_fields Mock.mock _ _ _ _ Hrun) as H.
  cbv zeta in H. destruct H as (_ & _ & Hsym & _ & _ & Hcur & _).
  split; [rewrite Hrun; reflexivity|]. split; [|exact Hcur].
  apply Hsym. reflexivity.
Defined.

Lemma retrieve_index_countries_returns_witness :
  fst (@retrieve_index_countries Mock.mock false Mock.w_nofile)
  = Ok [Mock.germany]
  /\ index_countries_csv
       (snd (@retrieve_index_countries Mock.mock false Mock.w_nofile))
     = Some [Mock.germany]
  /\ requests_log
       (snd (@retrieve_index_countries Mock.mock false Mock.w_nofile))
     = [(py "https://www.investing.com/indices/", 200%Z)].
Proof.
  assert (Hrun : @retrieve_index_countries Mock.mock false Mock.w_nofile
                 = (Ok [Mock.germany],
                    snd (@retrieve_index_countries Mock.mock false
                           Mock.w_nofile))).
  { vm_compute. reflexivity. }
  pose proof (@retrieve_index_countries_returns Mock.mock _ _ _ _ Hrun) as H.
  cbv zeta in H. destruct H as (_ & Hlog & _ & _ & _ & Hfile & _).
  split; [rewrite Hrun; reflexivity|]. split; [exact Hfile | exact Hlog].
Defined.

Lemma retrieve_global_indices_countries_returns_witness :
  exists e,
    fst (@retrieve_global_indices_countries Mock.mock true
           (Mock.world (fun _ => Mock.reply 200 "select") None None None))
    = Ok [e]
    /\ global_indices_countries_csv
         (snd (@retrieve_global_indices_countries Mock.mock true
                 (Mock.world (fun _ => Mock.reply 200 "select") None None None)))
       = None.
Proof.
  destruct (@retrieve_global_indices_countries Mock.mock true
              (Mock.world (fun _ => Mock.reply 200 "select") None None None))
    as [[cs|e] w'] eqn:Hrun; [|vm_compute in Hrun; discriminate].
  pose proof (@retrieve_global_indices_countries_returns Mock.mock _ _ _ _ Hrun)
    as H.
  cbv zeta in H. destruct H as (_ & _ & _ & [Hcs Hfile] & _).
  vm_compute in Hcs. eexists. split; [rewrite Hcs; reflexivity | exact Hfile].
Defined.

Lemma listers_raise_write_nothing_witness :
  fst (@retrieve_index_countries Mock.mock false
         (Mock.world (fun _ => Mock.reply 503 "select") None None None))
  = Raise (ConnectionError 503)
  /\ index_countries_csv
       (snd (@retrieve_index_countries Mock.mock false
               (Mock.world (fun _ => Mock.reply 503 "select") None None None)))
     = None.
Proof.
  assert (Hrun : @retrieve_index_countries Mock.mock false
                   (Mock.world (fun _ => Mock.reply 503 "select") None None None)
                 = (Raise (ConnectionError 503),
                    snd (@retrieve_index_countries Mock.mock false
                           (Mock.world (fun _ => Mock.reply 503 "select")
                              None None None)))).
  { vm_compute. reflexivity. }
  destruct (@listers_raise_write_nothing Mock.mock false _ _ _ (or_introl Hrun))
    as (Hfile & _).
  split; [rewrite Hrun; reflexivity | exact Hfile].
Defined.

Lemma retrieve_indices_never_empty_witness :
  sort_values_spec (@sort_values_country Mock.mock)
  /\ fst (@retrieve_indices Mock.mock false Mock.w_build) = Ok Mock.df_build
  /\ frame_rows Mock.df_build <> []
  /\ fst (@retrieve_indices Mock.mock false
            (Mock.world (fun _ => Mock.reply 200 "bare")
               (Some [Mock.germany]) (Some []) None))
     = Raise (KeyError "country").
Proof.
  assert (Hrun : @retrieve_indices Mock.mock false Mock.w_build
                 = (Ok Mock.df_build,
                    snd (@retrieve_indices Mock.mock false Mock.w_build))).
  { vm_compute. reflexivity. }
  destruct (@retrieve_indices_never_empty Mock.mock false Mock.w_build
              sort_rows_spec) as [Hrows _].
  split; [exact sort_rows_spec|]. split; [rewrite Hrun; reflexivity|].
  split; [exact (Hrows _ _ Hrun)|].
  vm_compute. reflexivity.
Defined.

Lemma retrieve_indices_needs_country_files_witness :
  fst (@retrieve_indices Mock.mock false Mock.w_build) = Ok Mock.df_build
  /\ index_countries_csv (snd (@retrieve_indices Mock.mock false Mock.w_build))
     = Some [Mock.germany]
  /\ global_indices_countries_csv
       (snd (@retrieve_indices Mock.mock false Mock.w_build)) = Some [].
Proof.
  assert (Hrun : @retrieve_indices Mock.mock false Mock.w_build
                 = (Ok Mock.df_build,
                    snd (@retrieve_indices Mock.mock false Mock.w_build))).
  { vm_compute. reflexivity. }
  destruct (@retrieve_indices_needs_country_files Mock.mock _ _ _ _ Hrun)
    as (cs & gs & Hc & Hg & Hc' & Hg' & _).
  injection Hc as <-. injection Hg as <-.
  split; [rewrite Hrun; reflexivity|]. split; assumption.
Defined.

Lemma retrieve_indices_without_globals_file_witness :
  global_indices_countries_csv
    (Mock.world (Mock.site 200 "global") (Some []) None None) = None
  /\ fst (@retrieve_indices Mock.mock true
            (Mock.world (Mock.site 200 "global") (Some []) None None))
     = Raise (KeyError "id")
  /\ index_countries_csv
       (snd (@retrieve_indices Mock.mock true
               (Mock.world (Mock.site 200 "global") (Some []) None None)))
     = Some [Mock.germany].
Proof.
  assert (Hg : global_indices_countries_csv
                 (Mock.world (Mock.site 200 "global") (Some []) None None)
               = None) by reflexivity.
  destruct (@retrieve_indices_without_globals_file Mock.mock true _ Hg)
    as [_ Hkey].
  assert (H1 : @pass1 Mock.mock true []
                 (Mock.world (Mock.site 200 "global") (Some []) None None)
               = (Ok [], Mock.world (Mock.site 200 "global") (Some []) None None)).
  { vm_compute. reflexivity. }
  assert (Hl : @retrieve_index_countries Mock.mock false
                 (Mock.world (Mock.site 200 "global") (Some []) None None)
               = (Ok [Mock.germany],
                  snd (@retrieve_index_countries Mock.mock false
                         (Mock.world (Mock.site 200 "global") (Some []) None
                            None)))).
  { vm_compute. reflexivity. }
  destruct (Hkey _ _ _ _ H1 Hl) as (Hrun & Hfile & _).
  split; [exact Hg|]. rewrite Hrun. split; [reflexivity | exact Hfile].
Defined.

Lemma retrieve_indices_text_fields_witness :
  sort_values_spec (@sort_values_country Mock.mock)
  /\ fst (@retrieve_indices Mock.mock false Mock.w_build) = Ok Mock.df_build
  /\ Forall text_wf [Mock.rec_stoxx; Mock.rec_dax].
Proof.
  assert (Hrun : @retrieve_indices Mock.mock false Mock.w_build
                 = (Ok Mock.df_build,
                    snd (@retrieve_indices Mock.mock false Mock.w_build))).
  { vm_compute. reflexivity. }
  split; [exact sort_rows_spec|]. split; [rewrite Hrun; reflexivity|].
  exact (@retrieve_indices_text_fields Mock.mock false _ _ _ sort_rows_spec Hrun).
Defined.

Lemma retrieve_indices_world_rows_witness :
  sort_values_spec (@sort_values_country Mock.mock)
  /\ fst (@retrieve_indices Mock.mock false Mock.w_build) = Ok Mock.df_build
  /\ market Mock.rec_dax = world_indices
  /\ class Mock.rec_dax <> bonds /\ country Mock.rec_dax <> py "uk".
Proof.
  assert (Hrun : @retrieve_indices Mock.mock false Mock.w_build
                 = (Ok Mock.df_build,
                    snd (@retrieve_indices Mock.mock false Mock.w_build))).
  { vm_compute. reflexivity. }
  pose proof (@retrieve_indices_world_rows Mock.mock false _ _ _
                sort_rows_spec Hrun) as H.
  split; [exact sort_rows_spec|]. split; [rewrite Hrun; reflexivity|].
  split; [reflexivity|].
  rewrite Forall_forall in H.
  destruct (H Mock.rec_dax) as (Hb & _ & Huk & _);
    [right; left; reflexivity | reflexivity |].
  split; assumption.
Defined.

Lemma export_all_columns_witness :
  indices_csv Mock.w_catalog = Some [Mock.rec_stoxx; Mock.rec_dax]
  /\ @indices_as_dict Mock.mock None None false Mock.w_catalog
     = (Ok (Some (Records
                    (to_dict query_columns
                       [drop_tag_id Mock.rec_stoxx; drop_tag_id Mock.rec_dax]))),
        Mock.w_catalog).
Proof.
  destruct (@export_all_columns Mock.mock Mock.w_catalog _ eq_refl) as (H & _).
  split; [reflexivity | exact H].
Defined.

Lemma readers_rebuild_witness :
  indices_csv Mock.w_build = None
  /\ fst (@indices_as_list Mock.mock None Mock.w_build)
     = Ok (Some [py "Euro Stoxx 50"; py "DAX"]).
Proof.
  pose proof (@readers_rebuild Mock.mock Mock.w_build None None false eq_refl)
    as H.
  destruct (@retrieve_indices Mock.mock false Mock.w_build) as [[df|e] w']
    eqn:Hrun; [|vm_compute in Hrun; discriminate].
  destruct H as (_ & Hlist & _).
  split; [reflexivity|].
  rewrite Hlist. vm_compute in Hrun. injection Hrun as <- _. reflexivity.
Defined.

Lemma countries_of_sorted_catalog_witness :
  indices_csv Mock.w_catalog = Some [Mock.rec_stoxx; Mock.rec_dax]
  /\ Sorted country_le [Mock.rec_stoxx; Mock.rec_dax]
  /\ exists l,
       @index_countries_as_list Mock.mock Mock.w_catalog = (Ok l, Mock.w_catalog)
       /\ StronglySorted str_lt l
       /\ In (py "germany") l.
Proof.
  assert (Hs : Sorted country_le [Mock.rec_stoxx; Mock.rec_dax]).
  { repeat constructor. }
  destruct (@countries_of_sorted_catalog Mock.mock Mock.w_catalog _ eq_refl Hs)
    as (l & Hl & Hsorted & Hin).
  split; [reflexivity|]. split; [exact Hs|].
  exists l. split; [exact Hl|]. split; [exact Hsorted|].
  apply Hin. right. left. reflexivity.
Defined.

Lemma readers_on_catalog_witness :
  indices_csv Mock.w_catalog = Some [Mock.rec_stoxx; Mock.rec_dax]
  /\ @indices_as_list Mock.mock None Mock.w_catalog
     = (Ok (Some [py "Euro Stoxx 50"; py "DAX"]), Mock.w_catalog)
  /\ snd (@indices_as_dict Mock.mock (Some (py "germany")) (Some [py "id"])
            true Mock.w_catalog) = Mock.w_catalog.
Proof.
  destruct (@readers_on_catalog Mock.mock Mock.w_catalog _
              (Some (py "germany")) (Some [py "id"]) true eq_refl)
    as (_ & _ & Hw & _ & _ & Hlist).
  split; [reflexivity|]. split; [exact Hlist | exact Hw].
Defined.

Lemma indices_as_dict_follows_df_witness :
  indices_csv Mock.w_catalog = Some [Mock.rec_stoxx; Mock.rec_dax]
  /\ [py "name"] <> []
  /\ @unidecode Mock.mock (@lower Mock.mock (py "germany")) = py "germany"
  /\ @indices_as_dict Mock.mock (Some (py "germany")) (Some [py "name"]) false
       Mock.w_catalog
     = (Ok (Some (Records [[(py "name", VStr (py "DAX"))]])), Mock.w_catalog).
Proof.
  assert (Hcols : [py "name"] <> []) by discriminate.
  pose proof (@indices_as_dict_follows_df Mock.mock Mock.w_catalog _
                (py "germany") [py "name"] eq_refl Hcols eq_refl eq_refl) as H.
  destruct (@indices_as_df Mock.mock (Some (py "germany")) Mock.w_catalog)
    as [[[df|]|e] w'] eqn:Hdf; cbn [fst] in H;
    try (vm_compute in Hdf; discriminate).
  destruct H as [_ Hdict].
  split; [reflexivity|]. split; [exact Hcols|]. split; [reflexivity|].
  rewrite Hdict. vm_compute in Hdf. injection Hdf as <- _. reflexivity.
Defined.

Lemma index_countries_as_list_order_witness :
  indices_csv Mock.w_catalog = Some [Mock.rec_stoxx; Mock.rec_dax]
  /\ ~ In (py "germany") [py "euro zone"]
  /\ fst (@index_countries_as_list Mock.mock Mock.w_catalog)
     = Ok [py "euro zone"; py "germany"].
Proof.
  assert (Hx : ~ In (py "germany") [py "euro zone"]).
  { intros [H|[]]. discriminate. }
  destruct (@index_countries_as_list_order Mock.mock Mock.w_catalog _
              [py "euro zone"] [] (py "germany") eq_refl eq_refl Hx)
    as (post' & Hl & _ & _).
  split; [reflexivity|]. split; [exact Hx|].
  vm_compute. reflexivity.
Defined.
